(** * Session-based authentication core of [paquetes.auth]

    A shallow embedding of [auth/sessions.py], [auth/storage.py],
    [auth/storage_json.py] and the guards of [auth/middleware.py], with the
    properties of the session lifecycle, the session quota and the scope
    authorizer stated over it.

    Conventions.
    - A Python [str] is a [string]; an [ascii] stands for a code point below
      256, and the predicates on characters ([isspace], [lower]) follow
      Python's on that range.
    - A naive [datetime] is the number of microseconds since the first
      instant Python can represent, a [timedelta] a number of microseconds.
    - [datetime.now()] and [uuid.uuid4()] are oracles of the environment,
      read through a counter kept in the world. *)

From Stdlib Require Import String Ascii List ZArith Bool Arith Lia.
Import ListNotations.

Local Open Scope string_scope.
Local Open Scope list_scope.

(* ================================================================== *)
(** ** Python strings *)
(* ================================================================== *)

Module PyStr.

(** [str.isspace] on one code point below 256. *)
Definition isspace (c : ascii) : bool :=
  let n := nat_of_ascii c in
  (((9 <=? n) && (n <=? 13)) || ((28 <=? n) && (n <=? 32))
   || (n =? 133) || (n =? 160))%nat.

Fixpoint lstrip (s : string) : string :=
  match s with
  | EmptyString => EmptyString
  | String c s' => if isspace c then lstrip s' else s
  end.

Fixpoint rstrip (s : string) : string :=
  match s with
  | EmptyString => EmptyString
  | String c s' =>
      match rstrip s' with
      | EmptyString => if isspace c then EmptyString else String c EmptyString
      | r => String c r
      end
  end.

(** [s.strip()] *)
Definition strip (s : string) : string := rstrip (lstrip s).

(** [c in s] for a one-character [c]. *)
Fixpoint contains (c : ascii) (s : string) : bool :=
  match s with
  | EmptyString => false
  | String x s' => Ascii.eqb x c || contains c s'
  end.

(** [s.split(sep)] for a one-character separator: every occurrence
    splits, empty pieces are kept, and the result is never empty. *)
Fixpoint split (sep : ascii) (s : string) : list string :=
  match s with
  | EmptyString => [EmptyString]
  | String c s' =>
      if Ascii.eqb c sep then EmptyString :: split sep s'
      else match split sep s' with
           | [] => [String c EmptyString]
           | piece :: pieces => String c piece :: pieces
           end
  end.

(** [a, b = s.split(sep, 1)] when [sep in s]: the text before the first
    separator and the text after it. *)
Fixpoint split_once (sep : ascii) (s : string) : string * string :=
  match s with
  | EmptyString => (EmptyString, EmptyString)
  | String c s' =>
      if Ascii.eqb c sep then (EmptyString, s')
      else let (a, b) := split_once sep s' in (String c a, b)
  end.

(** [s.replace(c, by)] for a one-character [c]. *)
Fixpoint replace (c : ascii) (by_ : string) (s : string) : string :=
  match s with
  | EmptyString => EmptyString
  | String x s' =>
      if Ascii.eqb x c then (by_ ++ replace c by_ s')%string
      else String x (replace c by_ s')
  end.

(** [x in xs] for a list of strings. *)
Definition mem (x : string) (xs : list string) : bool :=
  existsb (String.eqb x) xs.

(** [s.split()]: the maximal runs of non-space characters. [word] is the
    run being read. *)
Fixpoint split_ws_from (word : option string) (s : string) : list string :=
  match s with
  | EmptyString =>
      match word with Some w => [w] | None => [] end
  | String c s' =>
      if isspace c then
        match word with
        | Some w => w :: split_ws_from None s'
        | None => split_ws_from None s'
        end
      else
        split_ws_from
          (Some (match word with
                 | Some w => (w ++ String c EmptyString)%string
                 | None => String c EmptyString
                 end)) s'
  end.

Definition split_ws (s : string) : list string := split_ws_from None s.

(** [str.lower] on one code point below 256: the ASCII capitals and the
    Latin-1 capitals (all of 192..222 but the multiplication sign). *)
Definition lower_char (c : ascii) : ascii :=
  let n := nat_of_ascii c in
  if (((65 <=? n) && (n <=? 90))
      || ((192 <=? n) && (n <=? 222) && negb (n =? 215)))%nat
  then ascii_of_nat (n + 32) else c.

Fixpoint lower (s : string) : string :=
  match s with
  | EmptyString => EmptyString
  | String c s' => String (lower_char c) (lower s')
  end.

(** Truth value of an optional string: [None] and [''] are false. *)
Definition truthy (s : option string) : bool :=
  match s with
  | Some (String _ _) => true
  | _ => false
  end.

End PyStr.

(* ================================================================== *)
(** ** The fragment of [re] the authorizer can reach *)
(* ================================================================== *)

(** [re.match(pattern, s)] for patterns written with ordinary characters,
    [.], a postfix [*], [^] and [$], without flags.  A pattern that uses
    any other special character, and a pattern Python rejects with
    [re.error] (a star with nothing to repeat, a repeated star), has no
    result here. *)
Module Re.

Inductive atom : Type :=
| Lit (c : ascii)
| Dot.

Inductive item : Type :=
| One (a : atom)
| Star (a : atom)
| Bol
| Eol.

Definition outside_fragment (c : ascii) : bool :=
  PyStr.contains c "\+?{}[]()|".

Definition is_char (x : ascii) (c : ascii) : bool := Ascii.eqb x c.

Fixpoint parse (p : string) : option (list item) :=
  match p with
  | EmptyString => Some []
  | String c p' =>
      if outside_fragment c then None
      else if is_char "*" c then None
      else if is_char "^" c then option_map (cons Bol) (parse p')
      else if is_char "$" c then option_map (cons Eol) (parse p')
      else
        let a := if is_char "." c then Dot else Lit c in
        match p' with
        | String "*" p'' => option_map (cons (Star a)) (parse p'')
        | _ => option_map (cons (One a)) (parse p')
        end
  end.

(** [.] matches everything but a newline. *)
Definition atom_matches (a : atom) (c : ascii) : bool :=
  match a with
  | Lit x => Ascii.eqb x c
  | Dot => negb (Ascii.eqb c "010")
  end.

(** [$] holds at the end and just before a newline that ends the text. *)
Definition at_end (s : string) : bool :=
  match s with
  | EmptyString => true
  | String c EmptyString => Ascii.eqb c "010"
  | _ => false
  end.

(** Whether the items match a prefix of [s]; [at_start] tells whether
    [s] is the whole subject. *)
Fixpoint run (p : list item) (at_start : bool) (s : string) : bool :=
  match p with
  | [] => true
  | Bol :: p' => at_start && run p' at_start s
  | Eol :: p' => at_end s && run p' at_start s
  | One a :: p' =>
      match s with
      | String c s' => atom_matches a c && run p' false s'
      | EmptyString => false
      end
  | Star a :: p' =>
      (fix star (at_start : bool) (s : string) : bool :=
         run p' at_start s
         || match s with
            | String c s' => atom_matches a c && star false s'
            | EmptyString => false
            end) at_start s
  end.

(** The truth value of [re.match(pattern, s)]. *)
Definition re_match (pattern s : string) : option bool :=
  option_map (fun p => run p true s) (parse pattern).

End Re.

(* ================================================================== *)
(** ** Values, dictionaries and the world *)
(* ================================================================== *)

(** A naive [datetime], in microseconds. *)
Definition datetime : Type := Z.

Bind Scope Z_scope with datetime.

(** [timedelta(minutes=m)] *)
Definition timedelta_minutes (m : Z) : Z := (m * 60000000)%Z.

(** A timestamp as a session dictionary holds it: the [str] that
    [isoformat] gives (kept as the instant it denotes, so that
    [fromisoformat] is its inverse), or the [datetime] object. *)
Inductive pytime : Type :=
| IsoStr (t : datetime)
| DateTime (t : datetime).

Inductive exn : Type :=
| TypeError (msg : string).

(** [datetime.fromisoformat(x)] *)
Definition fromisoformat (x : pytime) : exn + datetime :=
  match x with
  | IsoStr t => inr t
  | DateTime _ => inl (TypeError "fromisoformat: argument must be str")
  end.

(** The dictionary of one session.  In the JSON file both timestamps are
    strings ([time] is [datetime], read as the string that denotes it); in
    the dictionaries the storage hands out they are [pytime]. *)
Module Session.

Record dict (time : Type) : Type := {
  session_id : string;
  username : string;
  created_at : time;
  last_activity : time;
  scopes : option string
}.

Arguments session_id {time}.
Arguments username {time}.
Arguments created_at {time}.
Arguments last_activity {time}.
Arguments scopes {time}.

End Session.

(** The values found in the dictionaries [sessions.py] returns. *)
Inductive pyval : Type :=
| PyNone
| PyStr (s : string)
| PyIso (t : datetime)        (* the str [t.isoformat()] *)
| PyDatetime (t : datetime).  (* a datetime object *)

Definition pyval_of_scopes (scopes : option string) : pyval :=
  match scopes with
  | Some s => PyStr s
  | None => PyNone
  end.

Definition pyval_of_pytime (x : pytime) : pyval :=
  match x with
  | IsoStr t => PyIso t
  | DateTime t => PyDatetime t
  end.

(** A [dict] with [str] keys, in insertion order. *)
Module PyDict.

Definition dict (V : Type) : Type := list (string * V).

Fixpoint get {V} (k : string) (d : dict V) : option V :=
  match d with
  | [] => None
  | (k', v) :: d' => if String.eqb k' k then Some v else get k d'
  end.

(** [k in d] *)
Definition mem {V} (k : string) (d : dict V) : bool :=
  match get k d with Some _ => true | None => false end.

(** [d[k] = v]: in place when the key is there, at the end otherwise. *)
Fixpoint set {V} (k : string) (v : V) (d : dict V) : dict V :=
  match d with
  | [] => [(k, v)]
  | (k', v') :: d' =>
      if String.eqb k' k then (k', v) :: d' else (k', v') :: set k v d'
  end.

(** [del d[k]] *)
Fixpoint del {V} (k : string) (d : dict V) : dict V :=
  match d with
  | [] => []
  | (k', v') :: d' =>
      if String.eqb k' k then d' else (k', v') :: del k d'
  end.

Definition keys {V} (d : dict V) : list string := map fst d.
Definition values {V} (d : dict V) : list V := map snd d.

End PyDict.

(** A session as [sessions.py] returns it. *)
Definition view : Type := PyDict.dict pyval.

(** What lies outside the program: the content of the sessions file (a
    file that is missing or unreadable reads as the empty dictionary) and
    the number of readings taken from the oracles so far. *)
Record world : Type := {
  sessions_json : PyDict.dict (Session.dict datetime);
  ticks : nat
}.

(** The oracles: what the [n]-th reading of [datetime.now()] or of
    [uuid.uuid4()] gives, and the variable [JWT_EXPIRATION_MINUTES]. *)
Class Env : Type := {
  now_at : nat -> datetime;
  uuid4_at : nat -> string;
  JWT_EXPIRATION_MINUTES : Z
}.

(** A call returns a value or raises, and leaves a world either way. *)
Inductive outcome (A : Type) : Type :=
| Return (a : A) (w : world)
| Raise (e : exn) (w : world).

Arguments Return {A}.
Arguments Raise {A}.

Definition M (A : Type) : Type := world -> outcome A.

Definition ret {A} (a : A) : M A := fun w => Return a w.

Definition bind {A B} (c : M A) (k : A -> M B) : M B :=
  fun w =>
    match c w with
    | Return a w' => k a w'
    | Raise e w' => Raise e w'
    end.

Definition raise {A} (e : exn) : M A := fun w => Raise e w.

Notation "x <- c ;; k" := (bind c (fun x => k))
  (at level 61, c at next level, right associativity).
Notation "c ;;; k" := (bind c (fun _ => k))
  (at level 61, right associativity).

Definition world_after {A} (o : outcome A) : world :=
  match o with
  | Return _ w => w
  | Raise _ w => w
  end.

(** The world after one more reading of an oracle. *)
Definition tick (w : world) : world :=
  {| sessions_json := sessions_json w; ticks := S (ticks w) |}.

Definition datetime_now `{Env} : M datetime :=
  fun w => Return (now_at (ticks w)) (tick w).

Definition uuid4 `{Env} : M string :=
  fun w => Return (uuid4_at (ticks w)) (tick w).

(* ================================================================== *)
(** ** The storage interface ([auth/storage.py]) *)
(* ================================================================== *)

Module Storage.

Record SessionStorage : Type := {
  ensure_table : M unit;
  create_session :
    string -> string -> datetime -> datetime -> option string -> M bool;
  get_session : string -> M (option (Session.dict pytime));
  update_last_activity : string -> datetime -> M bool;
  delete_session : string -> M bool;
  delete_user_sessions : string -> M Z;
  get_user_sessions : string -> Z -> M (list (Session.dict pytime));
  delete_oldest_session : string -> M bool;
  get_all_active_sessions :
    Z -> option string -> M (list (Session.dict pytime));
  cleanup_expired_sessions : Z -> M Z;
  count_active_sessions : string -> Z -> M Z;
  get_oldest_session : string -> Z -> M (option (Session.dict pytime));
  get_all_sessions : option string -> M (list (Session.dict pytime));
  get_user_max_sessions : string -> M Z
}.

End Storage.

(* ================================================================== *)
(** ** The JSON storage ([auth/storage_json.py]) *)
(* ================================================================== *)

Module StorageJson.

Section WithEnv.

Context `{Env}.

Definition _read_sessions : M (PyDict.dict (Session.dict datetime)) :=
  fun w => Return (sessions_json w) w.

Definition _write_sessions (sessions : PyDict.dict (Session.dict datetime))
  : M unit :=
  fun w => Return tt {| sessions_json := sessions; ticks := ticks w |}.

(** Writes the empty dictionary when the file is missing: the content,
    as [_read_sessions] gives it, stays what it was. *)
Definition ensure_table : M unit := ret tt.

Definition create_session (session_id username : string)
    (created_at last_activity : datetime) (scopes : option string)
  : M bool :=
  sessions <- _read_sessions ;;
  let sessions :=
    PyDict.set session_id
      {| Session.session_id := session_id;
         Session.username := username;
         Session.created_at := created_at;
         Session.last_activity := last_activity;
         Session.scopes := scopes |} sessions in
  _write_sessions sessions ;;;
  ret true.

(** [{**session, 'created_at': datetime.fromisoformat(...),
      'last_activity': datetime.fromisoformat(...)}] *)
Definition with_datetimes (s : Session.dict datetime) : Session.dict pytime :=
  {| Session.session_id := Session.session_id s;
     Session.username := Session.username s;
     Session.created_at := DateTime (Session.created_at s);
     Session.last_activity := DateTime (Session.last_activity s);
     Session.scopes := Session.scopes s |}.

(** [{**session, 'created_at': session['created_at'],
      'last_activity': session['last_activity']}] *)
Definition with_strings (s : Session.dict datetime) : Session.dict pytime :=
  {| Session.session_id := Session.session_id s;
     Session.username := Session.username s;
     Session.created_at := IsoStr (Session.created_at s);
     Session.last_activity := IsoStr (Session.last_activity s);
     Session.scopes := Session.scopes s |}.

Definition get_session (session_id : string)
  : M (option (Session.dict pytime)) :=
  sessions <- _read_sessions ;;
  match PyDict.get session_id sessions with
  | Some session => ret (Some (with_datetimes session))
  | None => ret None
  end.

Definition set_last_activity (t : datetime) (s : Session.dict datetime)
  : Session.dict datetime :=
  {| Session.session_id := Session.session_id s;
     Session.username := Session.username s;
     Session.created_at := Session.created_at s;
     Session.last_activity := t;
     Session.scopes := Session.scopes s |}.

Definition update_last_activity (session_id : string)
    (last_activity : datetime) : M bool :=
  sessions <- _read_sessions ;;
  match PyDict.get session_id sessions with
  | Some session =>
      _write_sessions
        (PyDict.set session_id (set_last_activity last_activity session)
                    sessions) ;;;
      ret true
  | None => ret false
  end.

Definition delete_session (session_id : string) : M bool :=
  sessions <- _read_sessions ;;
  if PyDict.mem session_id sessions then
    _write_sessions (PyDict.del session_id sessions) ;;;
    ret true
  else ret false.

Definition delete_all (to_delete : list string)
    (sessions : PyDict.dict (Session.dict datetime))
  : PyDict.dict (Session.dict datetime) :=
  fold_left (fun sessions sid => PyDict.del sid sessions) to_delete sessions.

Definition delete_user_sessions (user : string) : M Z :=
  sessions <- _read_sessions ;;
  let to_delete :=
    map fst (filter (fun '(sid, s) => String.eqb (Session.username s) user)
                    sessions) in
  (match to_delete with
   | [] => ret tt
   | _ => _write_sessions (delete_all to_delete sessions)
   end) ;;;
  ret (Z.of_nat (length to_delete)).

(** [age_minutes <= expiration_minutes], with
    [age_minutes = (now - last_activity).total_seconds() / 60], in exact
    arithmetic. *)
Definition age_within (now last_activity : datetime)
    (expiration_minutes : Z) : bool :=
  (now - last_activity <=? timedelta_minutes expiration_minutes)%Z.

Definition is_active_for (user : string) (now : datetime)
    (expiration_minutes : Z) (s : Session.dict datetime) : bool :=
  String.eqb (Session.username s) user
  && age_within now (Session.last_activity s) expiration_minutes.

Definition get_user_sessions (user : string) (expiration_minutes : Z)
  : M (list (Session.dict pytime)) :=
  sessions <- _read_sessions ;;
  now <- datetime_now ;;
  ret (map with_datetimes
           (filter (is_active_for user now expiration_minutes)
                   (PyDict.values sessions))).

(** [min(user_sessions, key=...)]: the first of the smallest.  The key is
    the stored string; the strings [isoformat] gives are ordered as their
    instants. *)
Fixpoint min_by_last_activity (best : string * Session.dict datetime)
    (rest : list (string * Session.dict datetime))
  : string * Session.dict datetime :=
  match rest with
  | [] => best
  | x :: rest' =>
      if (Session.last_activity (snd x) <? Session.last_activity (snd best))%Z
      then min_by_last_activity x rest'
      else min_by_last_activity best rest'
  end.

Definition delete_oldest_session (user : string) : M bool :=
  sessions <- _read_sessions ;;
  let user_sessions :=
    filter (fun '(sid, s) => String.eqb (Session.username s) user) sessions in
  match user_sessions with
  | [] => ret false
  | first :: others =>
      let oldest := min_by_last_activity first others in
      _write_sessions (PyDict.del (fst oldest) sessions) ;;;
      ret true
  end.

(** [if username and session['username'] != username: continue] *)
Definition skipped_by (filter_user : option string)
    (s : Session.dict datetime) : bool :=
  match filter_user with
  | Some (String _ _ as user) => negb (String.eqb (Session.username s) user)
  | _ => false
  end.

Definition get_all_active_sessions (expiration_minutes : Z)
    (filter_user : option string) : M (list (Session.dict pytime)) :=
  sessions <- _read_sessions ;;
  now <- datetime_now ;;
  ret (map with_datetimes
           (filter (fun s =>
                      negb (skipped_by filter_user s)
                      && age_within now (Session.last_activity s)
                                    expiration_minutes)
                   (PyDict.values sessions))).

Definition cleanup_expired_sessions (expiration_minutes : Z) : M Z :=
  sessions <- _read_sessions ;;
  now <- datetime_now ;;
  let to_delete :=
    map fst
        (filter (fun '(sid, s) =>
                   negb (age_within now (Session.last_activity s)
                                    expiration_minutes))
                sessions) in
  (match to_delete with
   | [] => ret tt
   | _ => _write_sessions (delete_all to_delete sessions)
   end) ;;;
  ret (Z.of_nat (length to_delete)).

(** The loop of [count_active_sessions]. *)
Fixpoint count_loop (user : string) (now : datetime)
    (expiration_minutes : Z) (values : list (Session.dict datetime))
    (count : Z) : Z :=
  match values with
  | [] => count
  | session :: rest =>
      if negb (String.eqb (Session.username session) user) then
        count_loop user now expiration_minutes rest count
      else if age_within now (Session.last_activity session) expiration_minutes
      then count_loop user now expiration_minutes rest (count + 1)%Z
      else count_loop user now expiration_minutes rest count
  end.

Definition count_active_sessions (user : string) (expiration_minutes : Z)
  : M Z :=
  sessions <- _read_sessions ;;
  now <- datetime_now ;;
  ret (count_loop user now expiration_minutes (PyDict.values sessions) 0%Z).

(** The loop of [get_oldest_session].  [oldest] holds its
    [last_activity] as a [datetime] object, and the comparison hands it
    to [datetime.fromisoformat]. *)
Fixpoint oldest_loop (user : string) (now : datetime)
    (expiration_minutes : Z) (values : list (Session.dict datetime))
    (oldest : option (Session.dict pytime))
  : exn + option (Session.dict pytime) :=
  match values with
  | [] => inr oldest
  | session :: rest =>
      if negb (String.eqb (Session.username session) user) then
        oldest_loop user now expiration_minutes rest oldest
      else if age_within now (Session.last_activity session) expiration_minutes
      then
        match oldest with
        | None =>
            oldest_loop user now expiration_minutes rest
                        (Some (with_datetimes session))
        | Some o =>
            match fromisoformat (Session.last_activity o) with
            | inl e => inl e
            | inr oldest_last_activity =>
                if (Session.last_activity session <? oldest_last_activity)%Z
                then oldest_loop user now expiration_minutes rest
                                 (Some (with_datetimes session))
                else oldest_loop user now expiration_minutes rest oldest
            end
        end
      else oldest_loop user now expiration_minutes rest oldest
  end.

Definition get_oldest_session (user : string) (expiration_minutes : Z)
  : M (option (Session.dict pytime)) :=
  sessions <- _read_sessions ;;
  now <- datetime_now ;;
  match oldest_loop user now expiration_minutes
                    (PyDict.values sessions) None with
  | inl e => raise e
  | inr oldest => ret oldest
  end.

Definition get_all_sessions (filter_user : option string)
  : M (list (Session.dict pytime)) :=
  sessions <- _read_sessions ;;
  ret (map with_strings
           (filter (fun s => negb (skipped_by filter_user s))
                   (PyDict.values sessions))).

(** The JSON file has no table of users. *)
Definition get_user_max_sessions (user : string) : M Z := ret 1%Z.

Definition JSONSessionStorage : Storage.SessionStorage :=
  {| Storage.ensure_table := ensure_table;
     Storage.create_session := create_session;
     Storage.get_session := get_session;
     Storage.update_last_activity := update_last_activity;
     Storage.delete_session := delete_session;
     Storage.delete_user_sessions := delete_user_sessions;
     Storage.get_user_sessions := get_user_sessions;
     Storage.delete_oldest_session := delete_oldest_session;
     Storage.get_all_active_sessions := get_all_active_sessions;
     Storage.cleanup_expired_sessions := cleanup_expired_sessions;
     Storage.count_active_sessions := count_active_sessions;
     Storage.get_oldest_session := get_oldest_session;
     Storage.get_all_sessions := get_all_sessions;
     Storage.get_user_max_sessions := get_user_max_sessions |}.

End WithEnv.

End StorageJson.

(* ================================================================== *)
(** ** The session manager ([auth/sessions.py]) *)
(* ================================================================== *)

Module Sessions.

Section WithStorage.

Context `{Env}.

(** [_get_storage()]: the backend that was configured. *)
Variable storage : Storage.SessionStorage.

Definition _get_expiration_minutes : Z := JWT_EXPIRATION_MINUTES.

Definition ensure_sessions_table : M unit := Storage.ensure_table storage.

(** [isinstance(x, str)] and then [fromisoformat], or [x] itself. *)
Definition as_datetime (x : pytime) : datetime :=
  match x with
  | IsoStr t => t
  | DateTime t => t
  end.

(** [while active_sessions >= max_sessions: ...].  Every turn takes one
    from [active_sessions], so [active_sessions - max_sessions + 1] turns
    are enough; [turns] counts them down. *)
Fixpoint evict_loop (turns : nat) (user : string)
    (expiration_minutes max_sessions active_sessions : Z) : M unit :=
  match turns with
  | O => ret tt
  | S turns' =>
      if (active_sessions >=? max_sessions)%Z then
        oldest_session <-
          Storage.get_oldest_session storage user expiration_minutes ;;
        match oldest_session with
        | Some oldest =>
            Storage.delete_session storage (Session.session_id oldest) ;;;
            evict_loop turns' user expiration_minutes max_sessions
                       (active_sessions - 1)%Z
        | None => ret tt
        end
      else ret tt
  end.

Definition turns_for (max_sessions active_sessions : Z) : nat :=
  Z.to_nat (active_sessions - max_sessions + 1)%Z.

Definition create_session (user : string) (scopes : option string)
  : M view :=
  ensure_sessions_table ;;;
  let expiration_minutes := _get_expiration_minutes in
  max_sessions <- Storage.get_user_max_sessions storage user ;;
  active_sessions <-
    Storage.count_active_sessions storage user expiration_minutes ;;
  evict_loop (turns_for max_sessions active_sessions) user
             expiration_minutes max_sessions active_sessions ;;;
  session_id <- uuid4 ;;
  now <- datetime_now ;;
  Storage.create_session storage session_id user now now scopes ;;;
  ret [ ("session_id", PyStr session_id);
        ("username", PyStr user);
        ("created_at", PyIso now);
        ("expires_at",
         PyIso (now + timedelta_minutes expiration_minutes)%Z);
        ("scopes", pyval_of_scopes scopes) ].

(** [renew] is [None] when the caller leaves the argument out. *)
Definition validate_session (session_id : string) (renew : option bool)
  : M (option view) :=
  let renew := match renew with Some b => b | None => true end in
  let expiration_minutes := _get_expiration_minutes in
  session <- Storage.get_session storage session_id ;;
  match session with
  | None => ret None
  | Some session =>
      let last_activity := as_datetime (Session.last_activity session) in
      now <- datetime_now ;;
      if (now >? last_activity + timedelta_minutes expiration_minutes)%Z
      then ret None
      else
        last_activity <-
          (if renew then
             now <- datetime_now ;;
             Storage.update_last_activity storage session_id now ;;;
             ret now
           else ret last_activity) ;;
        let created_at := as_datetime (Session.created_at session) in
        ret (Some
               [ ("session_id", PyStr (Session.session_id session));
                 ("username", PyStr (Session.username session));
                 ("created_at", PyIso created_at);
                 ("last_activity", PyIso last_activity);
                 ("expires_at",
                  PyIso (last_activity
                         + timedelta_minutes expiration_minutes)%Z);
                 ("scopes", pyval_of_scopes (Session.scopes session)) ])
  end.

Definition delete_session (session_id : string) : M bool :=
  Storage.delete_session storage session_id.

Definition delete_user_sessions (user : string) : M Z :=
  Storage.delete_user_sessions storage user.

Definition cleanup_expired_sessions : M Z :=
  Storage.cleanup_expired_sessions storage _get_expiration_minutes.

(** The loop of [get_active_sessions]. *)
Fixpoint active_loop (expiration_minutes : Z)
    (all_sessions : list (Session.dict pytime)) (active_sessions : list view)
  : M (list view) :=
  match all_sessions with
  | [] => ret active_sessions
  | session :: rest =>
      match fromisoformat (Session.last_activity session) with
      | inl e => raise e
      | inr last_activity =>
          now <- datetime_now ;;
          if (now <=? last_activity
                      + timedelta_minutes expiration_minutes)%Z
          then
            active_loop expiration_minutes rest
              (active_sessions ++
               [ [ ("session_id", PyStr (Session.session_id session));
                   ("username", PyStr (Session.username session));
                   ("created_at",
                    pyval_of_pytime (Session.created_at session));
                   ("last_activity",
                    pyval_of_pytime (Session.last_activity session));
                   ("expires_at",
                    PyIso (last_activity
                           + timedelta_minutes expiration_minutes)%Z);
                   ("scopes", pyval_of_scopes (Session.scopes session)) ] ])
          else active_loop expiration_minutes rest active_sessions
      end
  end.

Definition get_active_sessions (user : option string) : M (list view) :=
  let expiration_minutes := _get_expiration_minutes in
  all_sessions <- Storage.get_all_sessions storage user ;;
  active_loop expiration_minutes all_sessions [].

End WithStorage.

End Sessions.

(* ================================================================== *)
(** ** The scope check of the guards ([auth/middleware.py]) *)
(* ================================================================== *)

(** The guards carry the same block twice: once in the wrapper that
    [require_auth] builds, once in [SessionDependency.__call__].  Each is
    embedded from its own lines.  The result is [Some true] when the block
    falls through (the request goes on), [Some false] when it answers 403
    ("Permisos insuficientes"), and [None] when [re.match] has no result. *)
Module Middleware.

(** What a guard needs of a request. *)
Record request : Type := {
  (** [None] without the attribute [headers], else
      [request.headers.get('Authorization')] *)
  headers : option (option string);
  (** [None] without the attribute [cookies], else
      [request.cookies.get('Sesion_Auth')] *)
  cookies : option (option string);
  (** [hasattr(request, 'json')]: a request of Flask *)
  has_json : bool
}.

Inductive message : Type :=
| InvalidAuthorizationFormat   (* 'Formato de Authorization ...' *)
| AuthorizationRequired        (* 'Autorizacion requerida' *)
| InsufficientPermissions.     (* 'Permisos insuficientes' *)

Inductive reply : Type :=
| Response (error : message) (status : Z)   (* return jsonify(...), status *)
| HTTPException (status_code : Z) (detail : message).   (* raise ... *)

(** How a guard ends: the session goes on to the handler, the request is
    answered by the guard, or the run leaves the part that is modelled
    ([re.match] without a result). *)
Inductive guarded : Type :=
| Handler (session : view)
| Rejected (r : reply)
| Unmodelled.

Section Guards.

Context `{Env}.

Variable storage : Storage.SessionStorage.

(** [re.match], truth value of the result. *)
Variable re_match : string -> string -> option bool.

(** [[p.strip() for p in s.split(',')]] *)
Definition split_strip (s : string) : list string :=
  map PyStr.strip (PyStr.split "," s).

(** *** In the wrapper of [require_auth] *)

(** The inner loop, over the scopes of the session. *)
Fixpoint require_auth_user_loop (req_subsystem : string)
    (req_perms_list : list string) (user_scopes : list string)
  : option bool :=
  match user_scopes with
  | [] => Some false
  | user_scope :: rest =>
      if negb (PyStr.contains ":" user_scope) then
        require_auth_user_loop req_subsystem req_perms_list rest
      else
        let (user_subsystem, user_perms) := PyStr.split_once ":" user_scope in
        let user_perms_list := split_strip user_perms in
        match
          (if PyStr.contains "*" req_subsystem then
             let pattern := PyStr.replace "*" ".*" req_subsystem in
             let pattern := ("^" ++ pattern ++ "$")%string in
             re_match pattern user_subsystem
           else Some (String.eqb req_subsystem user_subsystem))
        with
        | None => None
        | Some subsystem_match =>
            if subsystem_match then
              if PyStr.mem "admin" user_perms_list then Some true
              else if forallb (fun perm => PyStr.mem perm user_perms_list)
                              req_perms_list
              then Some true
              else require_auth_user_loop req_subsystem req_perms_list rest
            else require_auth_user_loop req_subsystem req_perms_list rest
        end
  end.

(** The value of [matched] after the body of the outer loop. *)
Definition require_auth_matched (required : string)
    (user_scopes : list string) : option bool :=
  if PyStr.contains ":" required then
    let (req_subsystem, req_perms) := PyStr.split_once ":" required in
    let req_perms_list := split_strip req_perms in
    require_auth_user_loop req_subsystem req_perms_list user_scopes
  else
    Some (PyStr.mem required user_scopes).

(** The outer loop: the first scope that is not matched answers 403. *)
Fixpoint require_auth_required_loop (required_scopes : list string)
    (user_scopes : list string) : option bool :=
  match required_scopes with
  | [] => Some true
  | required :: rest =>
      match require_auth_matched required user_scopes with
      | None => None
      | Some matched =>
          if negb matched then Some false
          else require_auth_required_loop rest user_scopes
      end
  end.

(** [if scopes: ...], with [session_scopes = session.get('scopes', '')]. *)
Definition require_auth_scopes (scopes : option string)
    (session_scopes : option string) : option bool :=
  match scopes with
  | Some (String _ _ as scopes) =>
      let required_scopes := split_strip scopes in
      let user_scopes :=
        match session_scopes with
        | Some (String _ _ as session_scopes) => split_strip session_scopes
        | _ => []
        end in
      require_auth_required_loop required_scopes user_scopes
  | _ => Some true
  end.

(** *** In [SessionDependency.__call__] *)

Fixpoint SessionDependency_user_loop (req_subsystem : string)
    (req_perms_list : list string) (user_scopes : list string)
  : option bool :=
  match user_scopes with
  | [] => Some false
  | user_scope :: rest =>
      if negb (PyStr.contains ":" user_scope) then
        SessionDependency_user_loop req_subsystem req_perms_list rest
      else
        let (user_subsystem, user_perms) := PyStr.split_once ":" user_scope in
        let user_perms_list := split_strip user_perms in
        match
          (if PyStr.contains "*" req_subsystem then
             let pattern := PyStr.replace "*" ".*" req_subsystem in
             let pattern := ("^" ++ pattern ++ "$")%string in
             re_match pattern user_subsystem
           else Some (String.eqb req_subsystem user_subsystem))
        with
        | None => None
        | Some subsystem_match =>
            if subsystem_match then
              if PyStr.mem "admin" user_perms_list then Some true
              else if forallb (fun perm => PyStr.mem perm user_perms_list)
                              req_perms_list
              then Some true
              else SessionDependency_user_loop req_subsystem req_perms_list rest
            else SessionDependency_user_loop req_subsystem req_perms_list rest
        end
  end.

Definition SessionDependency_matched (required : string)
    (user_scopes : list string) : option bool :=
  if PyStr.contains ":" required then
    let (req_subsystem, req_perms) := PyStr.split_once ":" required in
    let req_perms_list := split_strip req_perms in
    SessionDependency_user_loop req_subsystem req_perms_list user_scopes
  else
    Some (PyStr.mem required user_scopes).

Fixpoint SessionDependency_required_loop (required_scopes : list string)
    (user_scopes : list string) : option bool :=
  match required_scopes with
  | [] => Some true
  | required :: rest =>
      match SessionDependency_matched required user_scopes with
      | None => None
      | Some matched =>
          if negb matched then Some false
          else SessionDependency_required_loop rest user_scopes
      end
  end.

(** [if self.scopes: ...] *)
Definition SessionDependency_scopes (self_scopes : option string)
    (session_scopes : option string) : option bool :=
  match self_scopes with
  | Some (String _ _ as scopes) =>
      let required_scopes := split_strip scopes in
      let user_scopes :=
        match session_scopes with
        | Some (String _ _ as session_scopes) => split_strip session_scopes
        | _ => []
        end in
      SessionDependency_required_loop required_scopes user_scopes
  | _ => Some true
  end.

(** *** Reading the token *)

(** [parts = auth_header.split()], then
    [len(parts) == 2 and parts[0].lower() == 'bearer'] gives [parts[1]]. *)
Definition bearer_token (auth_header : string) : option string :=
  match PyStr.split_ws auth_header with
  | [scheme; token] =>
      if String.eqb (PyStr.lower scheme) "bearer" then Some token else None
  | _ => None
  end.

Definition authorization (r : request) : option string :=
  match headers r with
  | Some h => h
  | None => None
  end.

(** [session.get('scopes', '')]: a [str] or [None] in every session that
    [validate_session] returns. *)
Definition session_scopes_of (session : view) : option string :=
  match PyDict.get "scopes" session with
  | Some (PyStr s) => Some s
  | Some _ => None
  | None => Some EmptyString
  end.

(** *** The wrapper of [require_auth(scopes)] *)

(** [args0] is the first positional argument, [kwargs_request] is
    [kwargs['request']], each when it is there. *)
Definition require_auth (scopes : option string)
    (args0 kwargs_request : option request) : M guarded :=
  let request :=
    match args0 with
    | Some r =>
        match headers r with
        | Some _ => Some r
        | None => kwargs_request
        end
    | None => kwargs_request
    end in
  let flask_like :=
    match request with
    | Some r => has_json r
    | None => false
    end in
  let refuse (status : Z) (msg : message) : reply :=
    if flask_like then Response msg status else HTTPException status msg in
  let auth_header :=
    match request with
    | Some r => authorization r
    | None => None
    end in
  match
    (if PyStr.truthy auth_header then
       match auth_header with
       | Some h =>
           match bearer_token h with
           | Some token => inr (Some token)
           | None => inl (refuse 401%Z InvalidAuthorizationFormat)
           end
       | None => inr None
       end
     else inr None)
  with
  | inl r => ret (Rejected r)
  | inr session_id =>
      let session_id :=
        if negb (PyStr.truthy session_id) then
          match request with
          | Some r =>
              match cookies r with
              | Some c => c
              | None => session_id
              end
          | None => session_id
          end
        else session_id in
      match session_id with
      | Some (String _ _ as session_id) =>
          session <- Sessions.validate_session storage session_id
                                               (Some true) ;;
          match session with
          | None => ret (Rejected (refuse 401%Z AuthorizationRequired))
          | Some session =>
              match require_auth_scopes scopes
                                        (session_scopes_of session) with
              | None => ret Unmodelled
              | Some false =>
                  ret (Rejected (refuse 403%Z InsufficientPermissions))
              | Some true => ret (Handler session)
              end
          end
      | _ => ret (Rejected (refuse 401%Z AuthorizationRequired))
      end
  end.

(** *** [get_session_from_request] *)

Definition get_session_from_request (r : request) : M (option view) :=
  match headers r with
  | None => ret None
  | Some auth_header =>
      let session_id :=
        if PyStr.truthy auth_header then
          match auth_header with
          | Some h => bearer_token h
          | None => None
          end
        else None in
      let session_id :=
        if negb (PyStr.truthy session_id) then
          match cookies r with
          | Some c => c
          | None => session_id
          end
        else session_id in
      match session_id with
      | Some (String _ _ as session_id) =>
          Sessions.validate_session storage session_id (Some true)
      | _ => ret None
      end
  end.

(** *** [SessionDependency(scopes).__call__(request)] *)

Definition SessionDependency_call (self_scopes : option string)
    (r : request) : M guarded :=
  let auth_header := authorization r in
  match
    (if PyStr.truthy auth_header then
       match auth_header with
       | Some h =>
           match bearer_token h with
           | Some token => inr (Some token)
           | None =>
               inl (HTTPException 401%Z InvalidAuthorizationFormat)
           end
       | None => inr None
       end
     else inr None)
  with
  | inl e => ret (Rejected e)
  | inr session_id =>
      let session_id :=
        if negb (PyStr.truthy session_id) then
          match cookies r with
          | Some c => c
          | None => session_id
          end
        else session_id in
      match session_id with
      | Some (String _ _ as session_id) =>
          session <- Sessions.validate_session storage session_id
                                               (Some true) ;;
          match session with
          | None =>
              ret (Rejected (HTTPException 401%Z AuthorizationRequired))
          | Some session =>
              match SessionDependency_scopes self_scopes
                                             (session_scopes_of session)
              with
              | None => ret Unmodelled
              | Some false =>
                  ret (Rejected
                         (HTTPException 403%Z InsufficientPermissions))
              | Some true => ret (Handler session)
              end
          end
      | _ => ret (Rejected (HTTPException 401%Z AuthorizationRequired))
      end
  end.

(** [get_current_session(scopes)] *)
Definition get_current_session (scopes : option string)
  : request -> M guarded :=
  SessionDependency_call scopes.

End Guards.

End Middleware.

(* ================================================================== *)
(** ** The helpers of the endpoints ([auth/endpoints.py]) *)
(* ================================================================== *)

Module Endpoints.

(** What a validator of credentials answers: something false ([False],
    [None], [{}]), something true that is no dictionary, or a dictionary
    that is not empty, with the values under ['username'] and ['scopes']
    when it has these keys. *)
Inductive validation : Type :=
| Invalid
| Valid
| ValidDict (username : option string) (scopes : option (option string)).

(** The texts of the answers. *)
Inductive text (raised : Type) : Type :=
| ValidatorNotConfigured     (* 'Validador de usuarios no configurado...' *)
| InvalidCredentials         (* 'Credenciales invalidas' *)
| ErrorDuringLogin (e : raised + exn)   (* f'Error durante login: {e}' *)
| SessionClosed              (* 'Sesion cerrada exitosamente' *)
| SessionNotFound            (* 'Sesion no encontrada' *)
| ErrorDuringLogout (e : exn)           (* f'Error durante logout: {e}' *)
| SessionInvalidOrExpired    (* 'Sesion invalida o expirada' *)
| ErrorGettingSession (e : exn)   (* f'Error obteniendo sesion: {e}' *)
| InvalidAuthorizationFormat (* 'Formato de Authorization invalido...' *)
| MissingCredential.   (* 'Falta header Authorization o cookie ...' *)

Arguments ValidatorNotConfigured {raised}.
Arguments InvalidCredentials {raised}.
Arguments ErrorDuringLogin {raised}.
Arguments SessionClosed {raised}.
Arguments SessionNotFound {raised}.
Arguments ErrorDuringLogout {raised}.
Arguments SessionInvalidOrExpired {raised}.
Arguments ErrorGettingSession {raised}.
Arguments InvalidAuthorizationFormat {raised}.
Arguments MissingCredential {raised}.

(** [{'success': True, 'session': session}] or
    [{'success': False, 'error': error}] *)
Inductive session_result (raised : Type) : Type :=
| WithSession (session : view)
| WithError (error : text raised).

Arguments WithSession {raised}.
Arguments WithError {raised}.

(** [{'success': success, 'message': message}] *)
Record logout_result (raised : Type) : Type := {
  success : bool;
  message : text raised
}.

Arguments success {raised}.
Arguments message {raised}.

(** What a route answers: [jsonify(body), status] in Flask and the
    returned content in FastAPI, the same with the cookie [Sesion_Auth]
    deleted, or a raised [HTTPException]. *)
Inductive body (raised : Type) : Type :=
| SessionBody (session : view)
| MessageBody (m : text raised)      (* {'message': m} *)
| ErrorBody (m : text raised).       (* {'error': m} *)

Arguments SessionBody {raised}.
Arguments MessageBody {raised}.
Arguments ErrorBody {raised}.

Inductive answer (raised : Type) : Type :=
| Json (b : body raised) (status : Z)
| JsonDeleteCookie (b : body raised)
| HTTPException (status_code : Z) (detail : text raised).

Arguments Json {raised}.
Arguments JsonDeleteCookie {raised}.
Arguments HTTPException {raised}.

Section WithStorage.

Context `{Env}.

Variable storage : Storage.SessionStorage.

(** What a validator may raise. *)
Variable raised : Type.

(** [try: ... except Exception as e: ...]: the world stays as the raise
    left it. *)
Definition try_except {A} (c : M A) (handler : exn -> A) : M A :=
  fun w =>
    match c w with
    | Return a w' => Return a w'
    | Raise e w' => Return (handler e) w'
    end.

(** [validator] is what [_get_user_validator()] returned: [None], or the
    function of the configured module, which answers or raises, and does
    not touch the sessions. *)
Definition login_user
    (validator : option (string -> string -> raised + validation))
    (username password : string) (scopes : option string)
  : M (session_result raised) :=
  match validator with
  | None => ret (WithError ValidatorNotConfigured)
  | Some validator =>
      match validator username password with
      | inl e => ret (WithError (ErrorDuringLogin (inl e)))
      | inr Invalid => ret (WithError InvalidCredentials)
      | inr validation_result =>
          let validated_username :=
            match validation_result with
            | ValidDict (Some validated) _ => validated
            | _ => username
            end in
          let validated_scopes :=
            match validation_result with
            | ValidDict _ (Some validated) => validated
            | _ => scopes
            end in
          try_except
            (session <- Sessions.create_session storage validated_username
                                                validated_scopes ;;
             ret (WithSession session))
            (fun e => WithError (ErrorDuringLogin (inr e)))
      end
  end.

Definition logout_user (session_id : string) : M (logout_result raised) :=
  try_except
    (deleted <- Sessions.delete_session storage session_id ;;
     if deleted : bool then
       ret {| success := true; message := SessionClosed |}
     else
       ret {| success := false; message := SessionNotFound |})
    (fun e => {| success := false; message := ErrorDuringLogout e |}).

Definition get_session_info (session_id : string)
  : M (session_result raised) :=
  try_except
    (session <- Sessions.validate_session storage session_id (Some false) ;;
     match session with
     | Some session => ret (WithSession session)
     | None => ret (WithError SessionInvalidOrExpired)
     end)
    (fun e => WithError (ErrorGettingSession e)).

(** *** The routes *)

(** The lines the routes [logout] and [session] begin with:
    [authorization] is [request.headers.get('Authorization')], [cookie]
    is [request.cookies.get('Sesion_Auth')].  [inl] is the refusal of a
    header that is not [Bearer <token>]. *)
Definition route_session_id (authorization cookie : option string)
  : unit + option string :=
  match
    (if PyStr.truthy authorization then
       match authorization with
       | Some auth_header =>
           match Middleware.bearer_token auth_header with
           | Some token => inr (Some token)
           | None => inl tt
           end
       | None => inr None
       end
     else inr None)
  with
  | inl refused => inl refused
  | inr session_id =>
      inr (if negb (PyStr.truthy session_id) then cookie else session_id)
  end.

(** [logout] of [create_flask_auth_routes] *)
Definition flask_logout (authorization cookie : option string)
  : M (answer raised) :=
  match route_session_id authorization cookie with
  | inl _ => ret (Json (ErrorBody InvalidAuthorizationFormat) 401)
  | inr (Some (String _ _ as session_id)) =>
      result <- logout_user session_id ;;
      if success result then ret (Json (MessageBody (message result)) 200)
      else ret (Json (ErrorBody (message result)) 400)
  | inr _ => ret (Json (ErrorBody MissingCredential) 401)
  end.

(** [session] of [create_flask_auth_routes] *)
Definition flask_session (authorization cookie : option string)
  : M (answer raised) :=
  match route_session_id authorization cookie with
  | inl _ => ret (Json (ErrorBody InvalidAuthorizationFormat) 401)
  | inr (Some (String _ _ as session_id)) =>
      result <- get_session_info session_id ;;
      match result with
      | WithSession session => ret (Json (SessionBody session) 200)
      | WithError error => ret (Json (ErrorBody error) 401)
      end
  | inr _ => ret (Json (ErrorBody MissingCredential) 401)
  end.

(** [logout] of [create_fastapi_auth_routes] *)
Definition fastapi_logout (authorization cookie : option string)
  : M (answer raised) :=
  match route_session_id authorization cookie with
  | inl _ => ret (HTTPException 401 InvalidAuthorizationFormat)
  | inr (Some (String _ _ as session_id)) =>
      result <- logout_user session_id ;;
      if success result
      then ret (JsonDeleteCookie (MessageBody (message result)))
      else ret (HTTPException 400 (message result))
  | inr _ => ret (HTTPException 401 MissingCredential)
  end.

(** [session] of [create_fastapi_auth_routes] *)
Definition fastapi_session (authorization cookie : option string)
  : M (answer raised) :=
  match route_session_id authorization cookie with
  | inl _ => ret (HTTPException 401 InvalidAuthorizationFormat)
  | inr (Some (String _ _ as session_id)) =>
      result <- get_session_info session_id ;;
      match result with
      | WithSession session => ret (Json (SessionBody session) 200)
      | WithError error => ret (HTTPException 401 error)
      end
  | inr _ => ret (HTTPException 401 MissingCredential)
  end.

End WithStorage.

End Endpoints.

(* ================================================================== *)
(** ** Vocabulary of the properties *)
(* ================================================================== *)

(** The granted tokens without a colon. *)
Definition bare_tokens (user_scopes : list string) : list string :=
  filter (fun g => negb (PyStr.contains ":" g)) user_scopes.

(** The session as [validate_session] and [get_active_sessions] return
    it. *)
Definition session_view (session_id user : string)
    (created_at last_activity : datetime) (expiration_minutes : Z)
    (scopes : option string) : view :=
  [ ("session_id", PyStr session_id);
    ("username", PyStr user);
    ("created_at", PyIso created_at);
    ("last_activity", PyIso last_activity);
    ("expires_at",
     PyIso (last_activity + timedelta_minutes expiration_minutes)%Z);
    ("scopes", pyval_of_scopes scopes) ].

Definition is_iso (v : option pyval) : bool :=
  match v with
  | Some (PyIso _) => true
  | _ => false
  end.

Definition is_str (v : option pyval) : bool :=
  match v with
  | Some (PyStr _) => true
  | _ => false
  end.

Definition is_str_or_none (v : option pyval) : bool :=
  match v with
  | Some (PyStr _) | Some PyNone => true
  | _ => false
  end.

Definition keys_are (ks : list string) (v : view) : bool :=
  if list_eq_dec string_dec (PyDict.keys v) ks then true else false.

(** The six fields of the wire shape, with their kinds. *)
Definition has_wire_shape (v : view) : bool :=
  keys_are [ "session_id"; "username"; "created_at"; "last_activity";
             "expires_at"; "scopes" ] v
  && is_str (PyDict.get "session_id" v)
  && is_str (PyDict.get "username" v)
  && is_iso (PyDict.get "created_at" v)
  && is_iso (PyDict.get "last_activity" v)
  && is_iso (PyDict.get "expires_at" v)
  && is_str_or_none (PyDict.get "scopes" v).

(** The five fields [create_session] returns, with their kinds. *)
Definition has_created_shape (v : view) : bool :=
  keys_are [ "session_id"; "username"; "created_at"; "expires_at";
             "scopes" ] v
  && is_str (PyDict.get "session_id" v)
  && is_str (PyDict.get "username" v)
  && is_iso (PyDict.get "created_at" v)
  && is_iso (PyDict.get "expires_at" v)
  && is_str_or_none (PyDict.get "scopes" v).

(** The world after the renewal of [session_id] at [now]: the stored
    [last_activity] is [now], and the clock was read twice. *)
Definition renewed (session_id : string) (now : datetime)
    (s : Session.dict datetime) (w : world) : world :=
  {| sessions_json :=
       PyDict.set session_id (StorageJson.set_last_activity now s)
                  (sessions_json w);
     ticks := S (S (ticks w)) |}.

(** The stored sessions of [user] that are active at [now], as
    [count_active_sessions] and [get_oldest_session] tell them. *)
Definition active_of `{Env} (user : string) (now : datetime)
    (d : PyDict.dict (Session.dict datetime))
  : list (Session.dict datetime) :=
  filter (StorageJson.is_active_for user now JWT_EXPIRATION_MINUTES)
         (PyDict.values d).

(** No session of [user] is active at the [k]-th reading of the clock or
    at a later one. *)
Definition idle_from `{Env} (k : nat) (user : string)
    (d : PyDict.dict (Session.dict datetime)) : Prop :=
  forall n : nat, (k <= n)%nat -> active_of user (now_at n) d = [].

(** The clock does not go back. *)
Definition clock_monotone `{Env} : Prop :=
  forall m n : nat, (m <= n)%nat -> (now_at m <= now_at n)%Z.

(** A file as the storage writes it: no key twice, and every session
    under its own [session_id]. *)
Definition well_keyed (d : PyDict.dict (Session.dict datetime)) : Prop :=
  NoDup (PyDict.keys d)
  /\ Forall (fun entry => Session.session_id (snd entry) = fst entry) d.

(** [s] has the smallest [last_activity] among [among]. *)
Definition is_oldest_of (s : Session.dict datetime)
    (among : list (Session.dict datetime)) : Prop :=
  In s among
  /\ forall s', In s' among ->
               (Session.last_activity s <= Session.last_activity s')%Z.

(** The session [create_session] stores, and the one it returns. *)
Definition new_session (session_id user : string) (now : datetime)
    (scopes : option string) : Session.dict datetime :=
  {| Session.session_id := session_id;
     Session.username := user;
     Session.created_at := now;
     Session.last_activity := now;
     Session.scopes := scopes |}.

Definition created_view (session_id user : string) (now : datetime)
    (expiration_minutes : Z) (scopes : option string) : view :=
  [ ("session_id", PyStr session_id);
    ("username", PyStr user);
    ("created_at", PyIso now);
    ("expires_at", PyIso (now + timedelta_minutes expiration_minutes)%Z);
    ("scopes", pyval_of_scopes scopes) ].

(** Every stored session was last active no earlier than it was created
    and no later than what the clock shows from now on. *)
Definition chronological `{Env} (w : world) : Prop :=
  forall (k : string) (s : Session.dict datetime),
    In (k, s) (sessions_json w) ->
    (Session.created_at s <= Session.last_activity s)%Z
    /\ forall n : nat,
         (ticks w <= n)%nat -> (Session.last_activity s <= now_at n)%Z.

(** No character of [s] is a space for [str.split()]. *)
Fixpoint no_space (s : string) : bool :=
  match s with
  | EmptyString => true
  | String c s' => negb (PyStr.isspace c) && no_space s'
  end.

(** Whether the granted token [user_scope] satisfies the required
    subsystem and permissions when the subsystem has no [*]: it names the
    same subsystem, and holds [admin] or every required permission. *)
Definition grants (req_subsystem : string) (req_perms_list : list string)
    (user_scope : string) : bool :=
  PyStr.contains ":" user_scope
  && String.eqb req_subsystem (fst (PyStr.split_once ":" user_scope))
  && (PyStr.mem "admin"
        (Middleware.split_strip (snd (PyStr.split_once ":" user_scope)))
      || forallb
           (fun perm =>
              PyStr.mem perm
                (Middleware.split_strip
                   (snd (PyStr.split_once ":" user_scope))))
           req_perms_list).

(** [n] calls, one after the other. *)
Fixpoint repeated {A} (n : nat) (call : M A) : M unit :=
  match n with
  | O => ret tt
  | S n' => call ;;; repeated n' call
  end.

(** The JSON storage as one request meets it when another request logs
    [victim] out ([delete_session]) after the first has read its session
    and before it updates it. *)
Definition JSON_with_logout_before_update `{Env} (victim : string)
  : Storage.SessionStorage :=
  let json := StorageJson.JSONSessionStorage in
  {| Storage.ensure_table := Storage.ensure_table json;
     Storage.create_session := Storage.create_session json;
     Storage.get_session := Storage.get_session json;
     Storage.update_last_activity := fun session_id last_activity =>
       StorageJson.delete_session victim ;;;
       Storage.update_last_activity json session_id last_activity;
     Storage.delete_session := Storage.delete_session json;
     Storage.delete_user_sessions := Storage.delete_user_sessions json;
     Storage.get_user_sessions := Storage.get_user_sessions json;
     Storage.delete_oldest_session := Storage.delete_oldest_session json;
     Storage.get_all_active_sessions :=
       Storage.get_all_active_sessions json;
     Storage.cleanup_expired_sessions :=
       Storage.cleanup_expired_sessions json;
     Storage.count_active_sessions := Storage.count_active_sessions json;
     Storage.get_oldest_session := Storage.get_oldest_session json;
     Storage.get_all_sessions := Storage.get_all_sessions json;
     Storage.get_user_max_sessions := Storage.get_user_max_sessions json |}.

(* ================================================================== *)
(** ** An environment and files for the examples *)
(* ================================================================== *)

(** An environment for the examples: the clock moves one minute with each
    reading, sessions live thirty minutes, and the [n]-th identifier is
    ["sid-n"]. *)
Definition minute_env : Env :=
  {| now_at := fun n => timedelta_minutes (Z.of_nat n);
     uuid4_at := fun n =>
       ("sid-" ++ String (ascii_of_nat (48 + n)) EmptyString)%string;
     JWT_EXPIRATION_MINUTES := 30%Z |}.

Definition empty_world : world := {| sessions_json := []; ticks := 0 |}.

(** The file after ["alice"] logged in at the first reading of the clock,
    seen [n] readings (minutes) later. *)
Definition alice_session : Session.dict datetime :=
  {| Session.session_id := "sid-0";
     Session.username := "alice";
     Session.created_at := 0%Z;
     Session.last_activity := 0%Z;
     Session.scopes := Some "billing:read" |}.

Definition alice_world (n : nat) : world :=
  {| sessions_json := [("sid-0", alice_session)]; ticks := n |}.

(** The JSON storage under [minute_env], and the same with the logout of
    ["sid-0"] landing before every update. *)
Definition minute_json : Storage.SessionStorage :=
  StorageJson.JSONSessionStorage (H := minute_env).

Definition minute_json_logout_race : Storage.SessionStorage :=
  JSON_with_logout_before_update (H := minute_env) "sid-0".

(* ################################################################## *)
(** * Properties *)
(* ################################################################## *)

(* ================================================================== *)
(** ** Properties of the scope check *)
(* ================================================================== *)

Section ScopeProperties.

Import Middleware.

Variable re_match : string -> string -> option bool.

Lemma mem_In (x : string) (xs : list string) :
  PyStr.mem x xs = true <-> In x xs.
Proof.
  unfold PyStr.mem. rewrite existsb_exists. split.
  - intros [y [Hy Heq]]. apply String.eqb_eq in Heq. now subst.
  - intros Hx. exists x. split; [assumption | apply String.eqb_refl].
Qed.

Lemma In_bare_tokens (r : string) (user_scopes : list string) :
  PyStr.contains ":" r = false ->
  In r (bare_tokens user_scopes) <-> In r user_scopes.
Proof.
  intros Hr. unfold bare_tokens. rewrite filter_In. split.
  - now intros [Hin _].
  - intros Hin. split; [assumption | now rewrite Hr].
Qed.

(** The two inner loops are one function. *)
Lemma user_loop_same (req_subsystem : string) (req_perms_list : list string)
    (user_scopes : list string) :
  require_auth_user_loop re_match req_subsystem req_perms_list user_scopes
  = SessionDependency_user_loop re_match req_subsystem req_perms_list
                                user_scopes.
Proof.
  induction user_scopes as [|user_scope rest IH]; simpl.
  - reflexivity.
  - rewrite IH. reflexivity.
Qed.

Lemma matched_same (required : string) (user_scopes : list string) :
  require_auth_matched re_match required user_scopes
  = SessionDependency_matched re_match required user_scopes.
Proof.
  unfold require_auth_matched, SessionDependency_matched.
  destruct (PyStr.contains ":" required); [|reflexivity].
  destruct (PyStr.split_once ":" required) as [req_subsystem req_perms].
  apply user_loop_same.
Qed.

Lemma required_loop_same (required_scopes user_scopes : list string) :
  require_auth_required_loop re_match required_scopes user_scopes
  = SessionDependency_required_loop re_match required_scopes user_scopes.
Proof.
  induction required_scopes as [|required rest IH]; simpl.
  - reflexivity.
  - rewrite matched_same, IH. reflexivity.
Qed.

Lemma bare_matched (required : string) (user_scopes : list string) :
  PyStr.contains ":" required = false ->
  require_auth_matched re_match required user_scopes
  = Some (PyStr.mem required user_scopes).
Proof.
  intros Hbare. unfold require_auth_matched. now rewrite Hbare.
Qed.

(** C1.  With ["billing:read,write"] required, both guards answer 403 to
    a session that holds ["billing:admin"], and to one that holds
    ["billing:read"]: the required string is cut at its commas first, so
    ["write"] is looked up as a scope of its own. *)
Theorem billing_read_write_refused :
  require_auth_scopes re_match (Some "billing:read,write")
                      (Some "billing:admin") = Some false
  /\ SessionDependency_scopes re_match (Some "billing:read,write")
                              (Some "billing:admin") = Some false
  /\ require_auth_scopes re_match (Some "billing:read,write")
                         (Some "billing:read") = Some false
  /\ SessionDependency_scopes re_match (Some "billing:read,write")
                              (Some "billing:read") = Some false
  /\ split_strip "billing:read,write" = ["billing:read"; "write"]
  /\ require_auth_matched re_match "billing:read" ["billing:admin"]
     = Some true
  /\ require_auth_matched re_match "write" ["billing:admin"] = Some false.
Proof. repeat split; reflexivity. Qed.


Lemma scopes_same (scopes session_scopes : option string) :
  require_auth_scopes re_match scopes session_scopes
  = SessionDependency_scopes re_match scopes session_scopes.
Proof.
  unfold require_auth_scopes, SessionDependency_scopes.
  destruct scopes as [[|c scopes]|];
    [reflexivity | apply required_loop_same | reflexivity].
Qed.

(** C7.  For every required string and every granted string the block in
    the wrapper of [require_auth] and the block in
    [SessionDependency.__call__] come to the same decision: each of the
    two loops of the one is the same function as its twin in the other. *)
Theorem scope_blocks_agree (scopes session_scopes : option string) :
  require_auth_scopes re_match scopes session_scopes
  = SessionDependency_scopes re_match scopes session_scopes
  /\ (forall required_scopes user_scopes : list string,
         require_auth_required_loop re_match required_scopes user_scopes
         = SessionDependency_required_loop re_match required_scopes
                                           user_scopes)
  /\ (forall (required : string) (user_scopes : list string),
         require_auth_matched re_match required user_scopes
         = SessionDependency_matched re_match required user_scopes).
Proof.
  split; [apply scopes_same | split].
  - apply required_loop_same.
  - apply matched_same.
Qed.

(** The pattern that reaches [re.match] for ["orders-*"]. *)
Lemma orders_glob_pattern (granted_subsystem : string) :
  PyStr.contains ":" granted_subsystem = false ->
  require_auth_matched re_match "orders-*:read"
                       [(granted_subsystem ++ ":read")%string]
  = re_match "^orders-.*$" granted_subsystem.
Proof.
  intros Hcolon.
  unfold require_auth_matched. simpl.
  assert (Hc : PyStr.contains ":" (granted_subsystem ++ ":read") = true).
  { clear. induction granted_subsystem as [|c g IH]; simpl.
    - reflexivity.
    - rewrite IH. apply orb_true_r. }
  rewrite Hc. simpl.
  assert (Hs : PyStr.split_once ":" (granted_subsystem ++ ":read")
               = (granted_subsystem, "read")).
  { clear - Hcolon. induction granted_subsystem as [|c g IH]; simpl.
    - reflexivity.
    - simpl in Hcolon. apply orb_false_elim in Hcolon as [Hc Hg].
      rewrite Hc, (IH Hg). reflexivity. }
  rewrite Hs. simpl.
  destruct (re_match "^orders-.*$" granted_subsystem) as [[|]|];
    reflexivity.
Qed.

End ScopeProperties.


(** C6.  With ["orders-*:read"] required, a session that holds
    ["orders-eu:read"] passes and one that holds ["invoices:read"] is
    refused, in both guards; what decides is [re.match] on the pattern
    ["^orders-.*$"] and the granted subsystem. *)
Theorem orders_glob :
  Middleware.require_auth_scopes Re.re_match (Some "orders-*:read")
                                 (Some "orders-eu:read") = Some true
  /\ Middleware.require_auth_scopes Re.re_match (Some "orders-*:read")
                                    (Some "invoices:read") = Some false
  /\ Middleware.SessionDependency_scopes Re.re_match (Some "orders-*:read")
                                         (Some "orders-eu:read") = Some true
  /\ Middleware.SessionDependency_scopes Re.re_match (Some "orders-*:read")
                                         (Some "invoices:read") = Some false
  /\ PyStr.replace "*" ".*" "orders-*" = "orders-.*"
  /\ (forall re_match,
        Middleware.require_auth_scopes re_match (Some "orders-*:read")
                                       (Some "orders-eu:read")
        = re_match "^orders-.*$" "orders-eu")
  /\ (forall re_match,
        Middleware.require_auth_scopes re_match (Some "orders-*:read")
                                       (Some "invoices:read")
        = re_match "^orders-.*$" "invoices")
  /\ Re.re_match "^orders-.*$" "orders-eu" = Some true
  /\ Re.re_match "^orders-.*$" "invoices" = Some false.
Proof.
  repeat split; try reflexivity.
  - intros re_match. vm_compute.
    destruct (re_match "^orders-.*$" "orders-eu") as [[|]|]; reflexivity.
  - intros re_match. vm_compute.
    destruct (re_match "^orders-.*$" "invoices") as [[|]|]; reflexivity.
Qed.

(* ================================================================== *)
(** ** Dictionaries *)
(* ================================================================== *)

Section DictProperties.

Context {V : Type}.

Lemma get_set_same (k : string) (v : V) (d : PyDict.dict V) :
  PyDict.get k (PyDict.set k v d) = Some v.
Proof.
  induction d as [|[k' v'] d IH]; simpl.
  - now rewrite String.eqb_refl.
  - destruct (String.eqb k' k) eqn:Hk; simpl; rewrite Hk.
    + reflexivity.
    + exact IH.
Qed.

Lemma get_set_other (k k0 : string) (v : V) (d : PyDict.dict V) :
  k0 <> k -> PyDict.get k0 (PyDict.set k v d) = PyDict.get k0 d.
Proof.
  intros Hne. induction d as [|[k' v'] d IH]; simpl.
  - destruct (String.eqb k k0) eqn:Hk; [|reflexivity].
    apply String.eqb_eq in Hk. congruence.
  - destruct (String.eqb k' k) eqn:Hk; simpl.
    + apply String.eqb_eq in Hk. subst k'.
      destruct (String.eqb k k0) eqn:Hk0; [|reflexivity].
      apply String.eqb_eq in Hk0. congruence.
    + now rewrite IH.
Qed.

Lemma get_In (k : string) (v : V) (d : PyDict.dict V) :
  PyDict.get k d = Some v -> In (k, v) d.
Proof.
  induction d as [|[k' v'] d IH]; simpl; [discriminate|].
  destruct (String.eqb k' k) eqn:Hk.
  - apply String.eqb_eq in Hk. intros [= ->]. left. now subst.
  - intros Hget. right. now apply IH.
Qed.

Lemma get_None_not_key (k : string) (d : PyDict.dict V) :
  PyDict.get k d = None -> ~ In k (PyDict.keys d).
Proof.
  induction d as [|[k' v'] d IH]; simpl; [tauto|].
  destruct (String.eqb k' k) eqn:Hk; [discriminate|].
  intros Hget [Heq|Hin].
  - subst k'. now rewrite String.eqb_refl in Hk.
  - now apply IH.
Qed.

Lemma not_key_get_None (k : string) (d : PyDict.dict V) :
  ~ In k (PyDict.keys d) -> PyDict.get k d = None.
Proof.
  induction d as [|[k' v'] d IH]; simpl; [reflexivity|].
  intros Hnotin. destruct (String.eqb k' k) eqn:Hk.
  - apply String.eqb_eq in Hk. exfalso. apply Hnotin. now left.
  - apply IH. intros Hin. apply Hnotin. now right.
Qed.

Lemma get_del_same (k : string) (d : PyDict.dict V) :
  NoDup (PyDict.keys d) -> PyDict.get k (PyDict.del k d) = None.
Proof.
  induction d as [|[k' v'] d IH]; simpl; [reflexivity|].
  intros Hnodup. apply NoDup_cons_iff in Hnodup as [Hnotin Hnodup].
  destruct (String.eqb k' k) eqn:Hk.
  - apply String.eqb_eq in Hk. subst k'. now apply not_key_get_None.
  - simpl. rewrite Hk. now apply IH.
Qed.

End DictProperties.

(* ================================================================== *)
(** ** [validate_session] over any storage *)
(* ================================================================== *)

Section ValidateProperties.

Context `{Env}.

Variable storage : Storage.SessionStorage.

Local Abbreviation ttl := (timedelta_minutes JWT_EXPIRATION_MINUTES).

(** Leaving [renew] out is passing [True]. *)
Lemma renew_defaults_to_true (session_id : string) :
  Sessions.validate_session storage session_id None
  = Sessions.validate_session storage session_id (Some true).
Proof. reflexivity. Qed.

Lemma validate_not_found (session_id : string) (renew : option bool)
    (w w1 : world) :
  Storage.get_session storage session_id w = Return None w1 ->
  Sessions.validate_session storage session_id renew w = Return None w1.
Proof.
  intros Hget. unfold Sessions.validate_session, bind. now rewrite Hget.
Qed.

Lemma validate_raises (session_id : string) (renew : option bool)
    (w w1 : world) (e : exn) :
  Storage.get_session storage session_id w = Raise e w1 ->
  Sessions.validate_session storage session_id renew w = Raise e w1.
Proof.
  intros Hget. unfold Sessions.validate_session, bind. now rewrite Hget.
Qed.

Lemma validate_expired (session_id : string) (renew : option bool)
    (w w1 : world) (s : Session.dict pytime) :
  Storage.get_session storage session_id w = Return (Some s) w1 ->
  (now_at (ticks w1)
   > Sessions.as_datetime (Session.last_activity s) + ttl)%Z ->
  Sessions.validate_session storage session_id renew w
  = Return None (tick w1).
Proof.
  intros Hget Hexp. unfold Sessions.validate_session, bind.
  rewrite Hget. unfold datetime_now, Sessions._get_expiration_minutes.
  apply Z.gtb_gt in Hexp. now rewrite Hexp.
Qed.

Lemma validate_peek (session_id : string) (w w1 : world)
    (s : Session.dict pytime) :
  Storage.get_session storage session_id w = Return (Some s) w1 ->
  (now_at (ticks w1)
   <= Sessions.as_datetime (Session.last_activity s) + ttl)%Z ->
  Sessions.validate_session storage session_id (Some false) w
  = Return
      (Some (session_view (Session.session_id s) (Session.username s)
               (Sessions.as_datetime (Session.created_at s))
               (Sessions.as_datetime (Session.last_activity s))
               JWT_EXPIRATION_MINUTES (Session.scopes s)))
      (tick w1).
Proof.
  intros Hget Hlive. unfold Sessions.validate_session, bind.
  rewrite Hget. unfold datetime_now, Sessions._get_expiration_minutes.
  assert (Hgt : (now_at (ticks w1)
                 >? Sessions.as_datetime (Session.last_activity s)
                    + timedelta_minutes JWT_EXPIRATION_MINUTES)%Z = false).
  { rewrite Z.gtb_ltb. apply Z.ltb_ge. exact Hlive. }
  rewrite Hgt. reflexivity.
Qed.

(** With [renew] the answer of [update_last_activity] is not looked at:
    whatever it is, the session comes back with the time of the renewal. *)
Lemma validate_renew (session_id : string) (w w1 w3 : world)
    (s : Session.dict pytime) (updated : bool) :
  Storage.get_session storage session_id w = Return (Some s) w1 ->
  (now_at (ticks w1)
   <= Sessions.as_datetime (Session.last_activity s) + ttl)%Z ->
  Storage.update_last_activity storage session_id (now_at (S (ticks w1)))
                               (tick (tick w1))
  = Return updated w3 ->
  Sessions.validate_session storage session_id (Some true) w
  = Return
      (Some (session_view (Session.session_id s) (Session.username s)
               (Sessions.as_datetime (Session.created_at s))
               (now_at (S (ticks w1)))
               JWT_EXPIRATION_MINUTES (Session.scopes s)))
      w3.
Proof.
  intros Hget Hlive Hupd. unfold Sessions.validate_session, bind.
  rewrite Hget. unfold datetime_now, Sessions._get_expiration_minutes.
  assert (Hgt : (now_at (ticks w1)
                 >? Sessions.as_datetime (Session.last_activity s)
                    + timedelta_minutes JWT_EXPIRATION_MINUTES)%Z = false).
  { rewrite Z.gtb_ltb. apply Z.ltb_ge. exact Hlive. }
  rewrite Hgt. simpl. rewrite Hupd. reflexivity.
Qed.

End ValidateProperties.

(* ================================================================== *)
(** ** The loop of [create_session] over any storage *)
(* ================================================================== *)

Section EvictionLoop.

Context `{Env}.

Variable storage : Storage.SessionStorage.

Lemma turns_for_step (max_sessions active_sessions : Z) :
  (active_sessions >=? max_sessions)%Z = true ->
  Sessions.turns_for max_sessions active_sessions
  = S (Sessions.turns_for max_sessions (active_sessions - 1)).
Proof.
  intros Hge. apply Z.geb_le in Hge. unfold Sessions.turns_for. lia.
Qed.

Lemma turns_for_done (max_sessions active_sessions : Z) :
  (active_sessions >=? max_sessions)%Z = false ->
  Sessions.turns_for max_sessions active_sessions = O.
Proof.
  intros Hge. rewrite Z.geb_leb in Hge. apply Z.leb_gt in Hge.
  unfold Sessions.turns_for. lia.
Qed.

(** The count of turns never ends the loop early: with
    [turns_for max_sessions active_sessions] turns or more the loop stops
    on its own test, or on [break]. *)
Lemma evict_loop_enough_turns (user : string)
    (expiration_minutes max_sessions : Z) (turns : nat) :
  forall (active_sessions : Z) (w : world),
    (Sessions.turns_for max_sessions active_sessions <= turns)%nat ->
    Sessions.evict_loop storage turns user expiration_minutes max_sessions
                        active_sessions w
    = Sessions.evict_loop storage
        (Sessions.turns_for max_sessions active_sessions) user
        expiration_minutes max_sessions active_sessions w.
Proof.
  induction turns as [|turns IH]; intros active_sessions w Hturns.
  - replace (Sessions.turns_for max_sessions active_sessions) with O by lia.
    reflexivity.
  - destruct (active_sessions >=? max_sessions)%Z eqn:Hge.
    + rewrite (turns_for_step _ _ Hge) in *.
      cbn [Sessions.evict_loop]. rewrite Hge. unfold bind.
      destruct (Storage.get_oldest_session storage user expiration_minutes w)
        as [[oldest|] w1|e w1]; try reflexivity.
      destruct (Storage.delete_session storage (Session.session_id oldest)
                                       w1) as [deleted w2|e w2];
        [|reflexivity].
      apply IH. lia.
    + rewrite (turns_for_done _ _ Hge).
      cbn [Sessions.evict_loop]. now rewrite Hge.
Qed.

End EvictionLoop.

(* ================================================================== *)
(** ** [validate_session] over the JSON storage *)
(* ================================================================== *)

Section ValidateJson.

Context `{Env}.

Local Abbreviation ttl := (timedelta_minutes JWT_EXPIRATION_MINUTES).
Local Abbreviation json := StorageJson.JSONSessionStorage.

Lemma json_get_session (session_id : string) (w : world) :
  Storage.get_session json session_id w
  = Return (option_map StorageJson.with_datetimes
                       (PyDict.get session_id (sessions_json w))) w.
Proof.
  simpl. unfold StorageJson.get_session, bind, StorageJson._read_sessions.
  now destruct (PyDict.get session_id (sessions_json w)).
Qed.

Lemma json_update_found (session_id : string) (t : datetime) (w : world)
    (s : Session.dict datetime) :
  PyDict.get session_id (sessions_json w) = Some s ->
  Storage.update_last_activity json session_id t w
  = Return true
      {| sessions_json :=
           PyDict.set session_id (StorageJson.set_last_activity t s)
                      (sessions_json w);
         ticks := ticks w |}.
Proof.
  intros Hget. simpl.
  unfold StorageJson.update_last_activity, bind, StorageJson._read_sessions.
  now rewrite Hget.
Qed.

Lemma json_update_missing (session_id : string) (t : datetime) (w : world) :
  PyDict.get session_id (sessions_json w) = None ->
  Storage.update_last_activity json session_id t w = Return false w.
Proof.
  intros Hget. simpl.
  unfold StorageJson.update_last_activity, bind, StorageJson._read_sessions.
  now rewrite Hget.
Qed.

Lemma json_validate_unknown (session_id : string) (renew : option bool)
    (w : world) :
  PyDict.get session_id (sessions_json w) = None ->
  Sessions.validate_session json session_id renew w = Return None w.
Proof.
  intros Hget. apply validate_not_found.
  rewrite json_get_session, Hget. reflexivity.
Qed.

Lemma json_validate_expired (session_id : string) (renew : option bool)
    (w : world) (s : Session.dict datetime) :
  PyDict.get session_id (sessions_json w) = Some s ->
  (now_at (ticks w) > Session.last_activity s + ttl)%Z ->
  Sessions.validate_session json session_id renew w = Return None (tick w).
Proof.
  intros Hget Hexp.
  apply validate_expired with (s := StorageJson.with_datetimes s).
  - rewrite json_get_session, Hget. reflexivity.
  - exact Hexp.
Qed.

Lemma json_validate_peek (session_id : string) (w : world)
    (s : Session.dict datetime) :
  PyDict.get session_id (sessions_json w) = Some s ->
  (now_at (ticks w) <= Session.last_activity s + ttl)%Z ->
  Sessions.validate_session json session_id (Some false) w
  = Return
      (Some (session_view (Session.session_id s) (Session.username s)
               (Session.created_at s) (Session.last_activity s)
               JWT_EXPIRATION_MINUTES (Session.scopes s)))
      (tick w).
Proof.
  intros Hget Hlive.
  apply validate_peek with (s := StorageJson.with_datetimes s).
  - rewrite json_get_session, Hget. reflexivity.
  - exact Hlive.
Qed.

Lemma json_validate_renew (session_id : string) (w : world)
    (s : Session.dict datetime) :
  PyDict.get session_id (sessions_json w) = Some s ->
  (now_at (ticks w) <= Session.last_activity s + ttl)%Z ->
  Sessions.validate_session json session_id (Some true) w
  = Return
      (Some (session_view (Session.session_id s) (Session.username s)
               (Session.created_at s) (now_at (S (ticks w)))
               JWT_EXPIRATION_MINUTES (Session.scopes s)))
      (renewed session_id (now_at (S (ticks w))) s w).
Proof.
  intros Hget Hlive.
  apply validate_renew
    with (s := StorageJson.with_datetimes s) (w1 := w) (updated := true).
  - rewrite json_get_session, Hget. reflexivity.
  - exact Hlive.
  - rewrite json_update_found with (s := s); [reflexivity | exact Hget].
Qed.

(** Without renewal the file is left as it is, whatever the outcome. *)
Lemma json_peek_frame (session_id : string) (w : world) :
  exists (r : option view) (w' : world),
    Sessions.validate_session json session_id (Some false) w = Return r w'
    /\ sessions_json w' = sessions_json w.
Proof.
  destruct (PyDict.get session_id (sessions_json w)) as [s|] eqn:Hget.
  - destruct (Z_le_gt_dec (now_at (ticks w)) (Session.last_activity s + ttl))
      as [Hlive|Hexp].
    + eexists; eexists. split.
      * now apply json_validate_peek with (s := s).
      * reflexivity.
    + eexists; eexists. split.
      * now apply json_validate_expired with (s := s).
      * reflexivity.
  - eexists; eexists. split.
    + now apply json_validate_unknown.
    + reflexivity.
Qed.

Lemma json_peek_repeated (session_id : string) (n : nat) (w : world) :
  exists w' : world,
    repeated n (Sessions.validate_session json session_id (Some false)) w
    = Return tt w'
    /\ sessions_json w' = sessions_json w.
Proof.
  revert w. induction n as [|n IH]; intros w; simpl.
  - exists w. split; reflexivity.
  - unfold bind.
    destruct (json_peek_frame session_id w) as [r [w1 [Hcall Hfile]]].
    rewrite Hcall.
    destruct (IH w1) as [w' [Hrest Hfile']].
    exists w'. split; [exact Hrest | congruence].
Qed.

End ValidateJson.

(* ================================================================== *)
(** ** The guards call [validate_session] with renewal *)
(* ================================================================== *)

Section GuardProperties.

Import Middleware.

Context `{Env}.

Variable storage : Storage.SessionStorage.
Variable re_match : string -> string -> option bool.

Lemma split_ws_from_nonempty (s : string) :
  forall (word : option string) (x : string),
    (forall w, word = Some w -> w <> EmptyString) ->
    In x (PyStr.split_ws_from word s) -> x <> EmptyString.
Proof.
  induction s as [|c s IH]; intros word x Hword Hin; simpl in Hin.
  - destruct word as [w|]; simpl in Hin; [|contradiction].
    destruct Hin as [<-|[]]. now apply Hword.
  - destruct (PyStr.isspace c).
    + destruct word as [w|].
      * destruct Hin as [<-|Hin]; [now apply Hword|].
        apply (IH None x); [discriminate | exact Hin].
      * apply (IH None x); [discriminate | exact Hin].
    + apply (IH _ x) in Hin; [exact Hin|].
      intros w [= <-]. destruct word as [w0|]; [|discriminate].
      destruct w0; discriminate.
Qed.

Lemma bearer_token_nonempty (h token : string) :
  bearer_token h = Some token ->
  h <> EmptyString /\ token <> EmptyString.
Proof.
  unfold bearer_token. intros Hb. split.
  - intros ->. discriminate.
  - destruct (PyStr.split_ws h) as [|a [|b [|c l]]] eqn:Hsplit;
      try discriminate.
    destruct (String.eqb (PyStr.lower a) "bearer"); [|discriminate].
    injection Hb as <-.
    apply (split_ws_from_nonempty h None b); [discriminate|].
    unfold PyStr.split_ws in Hsplit. rewrite Hsplit. simpl. tauto.
Qed.

(** A request that carries [Authorization: Bearer <token>] leaves the world
    that [validate_session(token, renew=True)] leaves, through each of the
    three guards. *)
Lemma guards_validate_with_renewal (scopes : option string) (r : request)
    (h token : string) (w : world) :
  headers r = Some (Some h) ->
  bearer_token h = Some token ->
  world_after (require_auth storage re_match scopes (Some r) None w)
  = world_after (Sessions.validate_session storage token (Some true) w)
  /\ get_session_from_request storage r w
     = Sessions.validate_session storage token (Some true) w
  /\ world_after (SessionDependency_call storage re_match scopes r w)
     = world_after (Sessions.validate_session storage token (Some true) w).
Proof.
  intros Hh Hb.
  destruct (bearer_token_nonempty h token Hb) as [Hne Htok].
  destruct h as [|c0 h]; [congruence|].
  destruct token as [|c1 token]; [congruence|].
  unfold require_auth, get_session_from_request, SessionDependency_call,
    authorization.
  rewrite Hh. cbn [PyStr.truthy negb]. rewrite ?Hh.
  cbn [PyStr.truthy negb]. rewrite !Hb. cbn [PyStr.truthy negb].
  unfold bind.
  destruct (Sessions.validate_session storage (String c1 token) (Some true) w)
    as [[v|] w'|e w']; cbn [world_after].
  - repeat split.
    + destruct (require_auth_scopes re_match scopes (session_scopes_of v))
        as [[|]|]; reflexivity.
    + destruct (SessionDependency_scopes re_match scopes
                                         (session_scopes_of v))
        as [[|]|]; reflexivity.
  - repeat split.
  - repeat split.
Qed.

(** The same for a request without the header that carries the cookie
    [Sesion_Auth]. *)
Lemma guards_validate_cookie (scopes : option string) (r : request)
    (c : ascii) (token : string) (w : world) :
  headers r = Some None ->
  cookies r = Some (Some (String c token)) ->
  world_after (require_auth storage re_match scopes (Some r) None w)
  = world_after
      (Sessions.validate_session storage (String c token) (Some true) w)
  /\ get_session_from_request storage r w
     = Sessions.validate_session storage (String c token) (Some true) w
  /\ world_after (SessionDependency_call storage re_match scopes r w)
     = world_after
         (Sessions.validate_session storage (String c token) (Some true) w).
Proof.
  intros Hh Hc.
  unfold require_auth, get_session_from_request, SessionDependency_call,
    authorization.
  rewrite Hh. cbn [PyStr.truthy negb]. rewrite ?Hh, ?Hc.
  cbn [PyStr.truthy negb]. rewrite ?Hc.
  unfold bind.
  destruct (Sessions.validate_session storage (String c token) (Some true) w)
    as [[v|] w'|e w']; cbn [world_after].
  - repeat split.
    + destruct (require_auth_scopes re_match scopes (session_scopes_of v))
        as [[|]|]; reflexivity.
    + destruct (SessionDependency_scopes re_match scopes
                                         (session_scopes_of v))
        as [[|]|]; reflexivity.
  - repeat split.
  - repeat split.
Qed.

(** For a request of FastAPI the wrapper and the dependency end the same
    way, whatever the header, the cookie and the store. *)
Lemma guards_agree_on_fastapi (scopes : option string) (r : request)
    (w : world) :
  headers r <> None ->
  has_json r = false ->
  require_auth storage re_match scopes (Some r) None w
  = SessionDependency_call storage re_match scopes r w.
Proof.
  intros Hheaders Hjson.
  unfold require_auth, SessionDependency_call, authorization.
  destruct (headers r) as [auth_header|] eqn:Hh; [|congruence].
  cbv beta iota zeta. rewrite ?Hh, ?Hjson. cbv beta iota zeta.
  destruct (if PyStr.truthy auth_header then _ else _)
    as [refused|session_id]; [reflexivity|].
  destruct (if negb (PyStr.truthy session_id) then _ else _)
    as [[|c sid]|]; [reflexivity | | reflexivity].
  unfold bind.
  destruct (Sessions.validate_session storage (String c sid) (Some true) w)
    as [[v|] w'|e w']; [rewrite scopes_same | |]; reflexivity.
Qed.

End GuardProperties.

(* ================================================================== *)
(** ** The shape of the sessions that are returned *)
(* ================================================================== *)

Section ShapeProperties.

Context `{Env}.

Local Abbreviation json := StorageJson.JSONSessionStorage.

Lemma session_view_shape (session_id user : string)
    (created_at last_activity : datetime) (expiration_minutes : Z)
    (scopes : option string) :
  has_wire_shape (session_view session_id user created_at last_activity
                               expiration_minutes scopes) = true.
Proof. destruct scopes; reflexivity. Qed.

Lemma validate_shape (storage : Storage.SessionStorage)
    (session_id : string) (renew : option bool) (w w' : world) (v : view) :
  Sessions.validate_session storage session_id renew w
  = Return (Some v) w' ->
  has_wire_shape v = true.
Proof.
  unfold Sessions.validate_session, bind.
  destruct (Storage.get_session storage session_id w) as [[s|] w1|e w1];
    try discriminate.
  unfold datetime_now.
  destruct (_ >? _)%Z; [discriminate|].
  destruct (match renew with Some b => b | None => true end).
  - cbn. destruct (Storage.update_last_activity storage _ _ _);
      [|discriminate].
    intros [= <- _]. apply session_view_shape.
  - cbn. intros [= <- _]. apply session_view_shape.
Qed.

Lemma active_loop_shape (expiration_minutes : Z)
    (stored : list (Session.dict datetime)) :
  forall (acc vs : list view) (w w' : world),
    Forall (fun v => has_wire_shape v = true) acc ->
    Sessions.active_loop expiration_minutes
                         (map StorageJson.with_strings stored) acc w
    = Return vs w' ->
    Forall (fun v => has_wire_shape v = true) vs.
Proof.
  induction stored as [|s stored IH]; intros acc vs w w' Hacc; simpl.
  - intros [= <- _]. exact Hacc.
  - unfold bind, datetime_now.
    destruct (_ <=? _)%Z.
    + apply IH. apply Forall_app. split; [exact Hacc|].
      constructor; [|constructor].
      apply (session_view_shape (Session.session_id s) (Session.username s)
               (Session.created_at s) (Session.last_activity s)
               expiration_minutes (Session.scopes s)).
    + apply IH. exact Hacc.
Qed.

Lemma active_sessions_shape (user : option string) (w w' : world)
    (vs : list view) :
  Sessions.get_active_sessions json user w = Return vs w' ->
  Forall (fun v => has_wire_shape v = true) vs.
Proof.
  unfold Sessions.get_active_sessions, bind. simpl.
  unfold StorageJson.get_all_sessions, bind, StorageJson._read_sessions.
  cbn. apply active_loop_shape. constructor.
Qed.

Lemma created_shape (storage : Storage.SessionStorage) (user : string)
    (scopes : option string) (w w' : world) (v : view) :
  Sessions.create_session storage user scopes w = Return v w' ->
  has_created_shape v = true /\ PyDict.get "last_activity" v = None.
Proof.
  unfold Sessions.create_session, bind, Sessions.ensure_sessions_table.
  destruct (Storage.ensure_table storage w) as [[] w1|e w1];
    [|discriminate].
  destruct (Storage.get_user_max_sessions storage user w1)
    as [max_sessions w2|e w2]; [|discriminate].
  destruct (Storage.count_active_sessions storage user _ w2)
    as [active_sessions w3|e w3]; [|discriminate].
  destruct (Sessions.evict_loop storage _ user _ _ _ w3)
    as [[] w4|e w4]; [|discriminate].
  unfold uuid4, datetime_now.
  destruct (Storage.create_session storage _ _ _ _ _ _)
    as [created w5|e w5]; [|discriminate].
  intros [= <- _]. destruct scopes; split; reflexivity.
Qed.

End ShapeProperties.

(* ================================================================== *)
(** ** Validation: expiry, renewal and the read-only peek *)
(* ================================================================== *)

Section LifecycleClaims.

Context `{Env}.

Local Abbreviation ttl := (timedelta_minutes JWT_EXPIRATION_MINUTES).
Local Abbreviation json := StorageJson.JSONSessionStorage.

(** C3, as amended.  When the session is found and has not expired,
    [validate_session(session_id, renew=True)] returns the session with
    the time of the renewal as its [last_activity], whatever
    [update_last_activity] answers: the answer is not looked at. *)
Theorem renewal_ignores_update_answer (storage : Storage.SessionStorage)
    (session_id : string) (w w1 w3 : world) (s : Session.dict pytime)
    (updated : bool) :
  Storage.get_session storage session_id w = Return (Some s) w1 ->
  (now_at (ticks w1)
   <= Sessions.as_datetime (Session.last_activity s) + ttl)%Z ->
  Storage.update_last_activity storage session_id (now_at (S (ticks w1)))
                               (tick (tick w1))
  = Return updated w3 ->
  Sessions.validate_session storage session_id (Some true) w
  = Return
      (Some (session_view (Session.session_id s) (Session.username s)
               (Sessions.as_datetime (Session.created_at s))
               (now_at (S (ticks w1)))
               JWT_EXPIRATION_MINUTES (Session.scopes s)))
      w3.
Proof.
  intros Hget Hlive Hupdate.
  now apply validate_renew with (w1 := w1) (updated := updated).
Qed.

(** C5.  [validate_session(session_id, renew=False)] over the JSON storage
    returns and leaves the file as it was, once and any number of times;
    for a session that has not expired it returns the stored
    [last_activity] and the [expires_at] that follows from it. *)
Theorem peek_is_read_only (session_id : string) (w : world) :
  (exists (r : option view) (w' : world),
      Sessions.validate_session json session_id (Some false) w = Return r w'
      /\ sessions_json w' = sessions_json w)
  /\ (forall n : nat,
         exists w' : world,
           repeated n (Sessions.validate_session json session_id
                                                 (Some false)) w
           = Return tt w'
           /\ sessions_json w' = sessions_json w)
  /\ (forall s : Session.dict datetime,
         PyDict.get session_id (sessions_json w) = Some s ->
         (now_at (ticks w) <= Session.last_activity s + ttl)%Z ->
         exists v : view,
           Sessions.validate_session json session_id (Some false) w
           = Return (Some v) (tick w)
           /\ PyDict.get "last_activity" v
              = Some (PyIso (Session.last_activity s))
           /\ PyDict.get "expires_at" v
              = Some (PyIso (Session.last_activity s + ttl)%Z)).
Proof.
  split; [|split].
  - apply json_peek_frame.
  - intros n. apply json_peek_repeated.
  - intros s Hget Hlive. eexists. split.
    + now apply json_validate_peek with (s := s).
    + split; reflexivity.
Qed.

(** C9.  Over the JSON storage, a session whose expiry has passed and an
    identifier that is not in the file get the same answer, [None], and
    neither call changes the file. *)
Theorem expired_is_answered_as_unknown (renew : option bool) (w : world)
    (unknown expired : string) (s : Session.dict datetime) :
  PyDict.get unknown (sessions_json w) = None ->
  PyDict.get expired (sessions_json w) = Some s ->
  (now_at (ticks w) > Session.last_activity s + ttl)%Z ->
  Sessions.validate_session json unknown renew w = Return None w
  /\ Sessions.validate_session json expired renew w = Return None (tick w)
  /\ sessions_json (tick w) = sessions_json w.
Proof.
  intros Hunknown Hfound Hexpired. split; [|split].
  - now apply json_validate_unknown.
  - now apply json_validate_expired with (s := s).
  - reflexivity.
Qed.

(** C10.  [renew] is [True] when it is left out.  For a session of the
    JSON file that has not expired, the call without the argument stores
    the time of the call as [last_activity], and so does each guard for a
    request that carries the identifier as a bearer token or in the cookie
    [Sesion_Auth]; with [renew=False] the file is left as it was. *)
Theorem renewal_is_the_default (session_id : string) (w : world)
    (s : Session.dict datetime) :
  PyDict.get session_id (sessions_json w) = Some s ->
  (now_at (ticks w) <= Session.last_activity s + ttl)%Z ->
  let now := now_at (S (ticks w)) in
  (forall storage : Storage.SessionStorage,
      Sessions.validate_session storage session_id None
      = Sessions.validate_session storage session_id (Some true))
  /\ Sessions.validate_session json session_id None w
     = Return
         (Some (session_view (Session.session_id s) (Session.username s)
                  (Session.created_at s) now JWT_EXPIRATION_MINUTES
                  (Session.scopes s)))
         (renewed session_id now s w)
  /\ option_map Session.last_activity
       (PyDict.get session_id (sessions_json (renewed session_id now s w)))
     = Some now
  /\ (forall (re_match : string -> string -> option bool)
             (scopes : option string) (r : Middleware.request) (h : string),
         Middleware.headers r = Some (Some h) ->
         Middleware.bearer_token h = Some session_id ->
         world_after (Middleware.require_auth json re_match scopes (Some r)
                                              None w)
         = renewed session_id now s w
         /\ world_after (Middleware.get_session_from_request json r w)
            = renewed session_id now s w
         /\ world_after (Middleware.SessionDependency_call json re_match
                                                           scopes r w)
            = renewed session_id now s w)
  /\ (forall (re_match : string -> string -> option bool)
             (scopes : option string) (r : Middleware.request),
         Middleware.headers r = Some None ->
         Middleware.cookies r = Some (Some session_id) ->
         session_id <> EmptyString ->
         world_after (Middleware.require_auth json re_match scopes (Some r)
                                              None w)
         = renewed session_id now s w
         /\ world_after (Middleware.get_session_from_request json r w)
            = renewed session_id now s w
         /\ world_after (Middleware.SessionDependency_call json re_match
                                                           scopes r w)
            = renewed session_id now s w)
  /\ sessions_json
       (world_after (Sessions.validate_session json session_id (Some false)
                                               w))
     = sessions_json w.
Proof.
  intros Hget Hlive now.
  assert (Hrenew := json_validate_renew session_id w s Hget Hlive).
  split; [|split; [|split; [|split; [|split]]]].
  - intros storage. apply renew_defaults_to_true.
  - rewrite renew_defaults_to_true. exact Hrenew.
  - unfold renewed. simpl. now rewrite get_set_same.
  - intros re_match scopes r h Hh Hb.
    destruct (guards_validate_with_renewal json re_match scopes r h
                session_id w Hh Hb) as [Hdec [Hget_req Hdep]].
    rewrite Hdec, Hget_req, Hdep, Hrenew. repeat split.
  - intros re_match scopes r Hh Hc Hne.
    destruct session_id as [|c token]; [congruence|].
    destruct (guards_validate_cookie json re_match scopes r c token w Hh Hc)
      as [Hdec [Hget_req Hdep]].
    rewrite Hdec, Hget_req, Hdep, Hrenew. repeat split.
  - rewrite (json_validate_peek session_id w s Hget Hlive). reflexivity.
Qed.

(** C8, as amended.  The sessions that [validate_session] and
    [get_active_sessions] return have the six fields [session_id],
    [username], [created_at], [last_activity], [expires_at] and [scopes],
    the timestamps as ISO strings and [scopes] a string or [None]; the
    session that [create_session] returns has the five fields
    [session_id], [username], [created_at], [expires_at] and [scopes]. *)
Theorem returned_sessions_shape :
  (forall (storage : Storage.SessionStorage) (session_id : string)
          (renew : option bool) (w w' : world) (v : view),
      Sessions.validate_session storage session_id renew w
      = Return (Some v) w' ->
      has_wire_shape v = true)
  /\ (forall (user : option string) (w w' : world) (vs : list view),
         Sessions.get_active_sessions json user w = Return vs w' ->
         Forall (fun v => has_wire_shape v = true) vs)
  /\ (forall (storage : Storage.SessionStorage) (user : string)
             (scopes : option string) (w w' : world) (v : view),
         Sessions.create_session storage user scopes w = Return v w' ->
         has_created_shape v = true
         /\ PyDict.get "last_activity" v = None).
Proof.
  split; [|split].
  - intros storage session_id renew w w' v. apply validate_shape.
  - intros user w w' vs. apply active_sessions_shape.
  - intros storage user scopes w w' v. apply created_shape.
Qed.

End LifecycleClaims.

Lemma renewal_ignores_update_answer_witness :
  Storage.get_session minute_json_logout_race "sid-0" (alice_world 5)
  = Return (Some (StorageJson.with_datetimes alice_session)) (alice_world 5)
  /\ Storage.update_last_activity minute_json_logout_race "sid-0"
       (timedelta_minutes 6) (alice_world 7)
     = Return false {| sessions_json := []; ticks := 7 |}
  /\ Sessions.validate_session (H := minute_env) minute_json_logout_race
       "sid-0" (Some true) (alice_world 5)
     = Return
         (Some (session_view "sid-0" "alice" 0 (timedelta_minutes 6) 30
                             (Some "billing:read")))
         {| sessions_json := []; ticks := 7 |}.
Proof.
  split; [reflexivity | split; [reflexivity|]].
  apply (renewal_ignores_update_answer (H := minute_env)
           minute_json_logout_race "sid-0" (alice_world 5) (alice_world 5)
           {| sessions_json := []; ticks := 7 |}
           (StorageJson.with_datetimes alice_session) false).
  - reflexivity.
  - vm_compute. discriminate.
  - reflexivity.
Defined.

(** The session was found and had not expired, the update answered
    [False] because the session had been logged out in between, and the
    call did not return [None]. *)
Lemma vanished_session_is_returned :
  Storage.get_session minute_json_logout_race "sid-0" (alice_world 5)
  = Return (Some (StorageJson.with_datetimes alice_session)) (alice_world 5)
  /\ (now_at (Env := minute_env) 5
      <= 0 + timedelta_minutes (JWT_EXPIRATION_MINUTES (Env := minute_env)))%Z
  /\ Storage.update_last_activity minute_json_logout_race "sid-0"
       (now_at (Env := minute_env) 6) (tick (tick (alice_world 5)))
     = Return false {| sessions_json := []; ticks := 7 |}
  /\ Sessions.validate_session (H := minute_env) minute_json_logout_race
       "sid-0" (Some true) (alice_world 5)
     <> Return None {| sessions_json := []; ticks := 7 |}
  /\ Sessions.validate_session (H := minute_env) minute_json_logout_race
       "sid-0" (Some true) (alice_world 5)
     = Return
         (Some [ ("session_id", PyStr "sid-0");
                 ("username", PyStr "alice");
                 ("created_at", PyIso 0);
                 ("last_activity", PyIso 360000000);
                 ("expires_at", PyIso 2160000000);
                 ("scopes", PyStr "billing:read") ])
         {| sessions_json := []; ticks := 7 |}.
Proof.
  split; [reflexivity|].
  split; [vm_compute; discriminate|].
  split; [reflexivity|].
  split; [vm_compute; discriminate | reflexivity].
Qed.

Lemma expired_is_answered_as_unknown_witness :
  Sessions.validate_session (H := minute_env) minute_json "nobody"
                            (Some true) (alice_world 31)
  = Return None (alice_world 31)
  /\ Sessions.validate_session (H := minute_env) minute_json "sid-0"
                               (Some true) (alice_world 31)
     = Return None (alice_world 32).
Proof.
  destruct (expired_is_answered_as_unknown (H := minute_env) (Some true)
              (alice_world 31) "nobody" "sid-0" alice_session)
    as [Hunknown [Hexpired _]].
  - reflexivity.
  - reflexivity.
  - vm_compute. reflexivity.
  - split; [exact Hunknown | exact Hexpired].
Defined.

Lemma renewal_is_the_default_witness :
  Sessions.validate_session (H := minute_env) minute_json "sid-0" None
                            (alice_world 5)
  = Return
      (Some (session_view "sid-0" "alice" 0 (timedelta_minutes 6) 30
                          (Some "billing:read")))
      {| sessions_json :=
           [("sid-0",
             StorageJson.set_last_activity (timedelta_minutes 6)
                                           alice_session)];
         ticks := 7 |}.
Proof.
  refine (proj1 (proj2 (renewal_is_the_default (H := minute_env) "sid-0"
                          (alice_world 5) alice_session _ _))).
  - reflexivity.
  - vm_compute. discriminate.
Defined.

(** [create_session] returns a session without [last_activity]. *)
Lemma created_session_lacks_last_activity :
  match Sessions.create_session (H := minute_env) minute_json "alice" None
                                empty_world with
  | Return v _ =>
      v = [ ("session_id", PyStr "sid-1");
            ("username", PyStr "alice");
            ("created_at", PyIso 120000000);
            ("expires_at", PyIso 1920000000);
            ("scopes", PyNone) ]
      /\ PyDict.get "last_activity" v = None
      /\ has_wire_shape v = false
  | Raise _ _ => False
  end.
Proof. vm_compute. repeat split. Qed.

Lemma returned_sessions_shape_witness :
  has_wire_shape
    (session_view "sid-0" "alice" 0 0 30 (Some "billing:read")) = true.
Proof.
  refine (proj1 (returned_sessions_shape (H := minute_env)) minute_json
            "sid-0" (Some false) (alice_world 5) (alice_world 6) _ _).
  reflexivity.
Defined.

(* ================================================================== *)
(** ** The quota: the JSON storage *)
(* ================================================================== *)

Section QuotaStorage.

Context `{Env}.

Local Abbreviation json := StorageJson.JSONSessionStorage.
Local Abbreviation exp := JWT_EXPIRATION_MINUTES.

Variable user : string.

Lemma filter_nil_iff {A} (p : A -> bool) (l : list A) :
  filter p l = [] <-> forall x, In x l -> p x = false.
Proof.
  induction l as [|a l IH]; simpl.
  - split; [intros _ x [] | reflexivity].
  - destruct (p a) eqn:Hp.
    + split; [discriminate|]. intros Hall.
      specialize (Hall a (or_introl eq_refl)). congruence.
    + rewrite IH. split.
      * intros Hall x [<-|Hin]; [exact Hp | now apply Hall].
      * intros Hall x Hin. apply Hall. now right.
Qed.

Lemma filter_length_imp {A} (p q : A -> bool) (l : list A) :
  (forall x, In x l -> p x = true -> q x = true) ->
  (length (filter p l) <= length (filter q l))%nat.
Proof.
  induction l as [|a l IH]; intros Himp; simpl; [lia|].
  assert (IH' : (length (filter p l) <= length (filter q l))%nat).
  { apply IH. intros x Hin. apply Himp. now right. }
  destruct (p a) eqn:Hp.
  - rewrite (Himp a (or_introl eq_refl) Hp). simpl. lia.
  - destruct (q a); simpl; lia.
Qed.

(** A session that is active now was active at every earlier reading. *)
Lemma active_earlier (m n : nat) (s : Session.dict datetime) :
  clock_monotone -> (m <= n)%nat ->
  StorageJson.is_active_for user (now_at n) exp s = true ->
  StorageJson.is_active_for user (now_at m) exp s = true.
Proof.
  intros Hmono Hle. unfold StorageJson.is_active_for, StorageJson.age_within.
  intros Hact. apply andb_true_iff in Hact as [Huser Hage].
  rewrite Huser. simpl. apply Z.leb_le in Hage. apply Z.leb_le.
  specialize (Hmono m n Hle). lia.
Qed.

Lemma idle_later (k : nat) (d : PyDict.dict (Session.dict datetime)) :
  clock_monotone -> active_of user (now_at k) d = [] -> idle_from k user d.
Proof.
  intros Hmono Hnil n Hle. unfold active_of in *.
  apply filter_nil_iff. intros s Hin.
  destruct (StorageJson.is_active_for user (now_at n) exp s) eqn:Hact;
    [|reflexivity].
  apply (active_earlier k n s Hmono Hle) in Hact.
  rewrite filter_nil_iff in Hnil. rewrite (Hnil s Hin) in Hact.
  discriminate.
Qed.

Lemma idle_from_later (k k' : nat) (d : PyDict.dict (Session.dict datetime)) :
  (k <= k')%nat -> idle_from k user d -> idle_from k' user d.
Proof.
  intros Hle Hidle n Hn. apply Hidle. lia.
Qed.

Lemma active_count_later (m n : nat)
    (d : PyDict.dict (Session.dict datetime)) :
  clock_monotone -> (m <= n)%nat ->
  (length (active_of user (now_at n) d)
   <= length (active_of user (now_at m) d))%nat.
Proof.
  intros Hmono Hle. apply filter_length_imp.
  intros s _. now apply active_earlier.
Qed.

(** *** What the storage calls of [create_session] do *)

Lemma count_loop_length (now : datetime)
    (values : list (Session.dict datetime)) :
  forall count : Z,
    StorageJson.count_loop user now exp values count
    = (count
       + Z.of_nat (length (filter (StorageJson.is_active_for user now exp)
                                  values)))%Z.
Proof.
  induction values as [|s values IH]; intros count; simpl.
  - lia.
  - unfold StorageJson.is_active_for at 1.
    destruct (String.eqb (Session.username s) user); simpl.
    + destruct (StorageJson.age_within now (Session.last_activity s) exp);
        simpl; rewrite IH; lia.
    + apply IH.
Qed.

Lemma json_count (w : world) :
  Storage.count_active_sessions json user exp w
  = Return (Z.of_nat (length (active_of user (now_at (ticks w))
                                        (sessions_json w))))
           (tick w).
Proof.
  simpl. unfold StorageJson.count_active_sessions, bind,
    StorageJson._read_sessions, datetime_now, ret.
  rewrite count_loop_length. reflexivity.
Qed.

(** Once [oldest] is set, the next active session of the user makes the
    comparison raise. *)
Lemma oldest_loop_set (now : datetime)
    (values : list (Session.dict datetime)) (o : Session.dict datetime) :
  StorageJson.oldest_loop user now exp values
                          (Some (StorageJson.with_datetimes o))
  = match filter (StorageJson.is_active_for user now exp) values with
    | [] => inr (Some (StorageJson.with_datetimes o))
    | _ :: _ => inl (TypeError "fromisoformat: argument must be str")
    end.
Proof.
  induction values as [|s values IH]; simpl.
  - reflexivity.
  - unfold StorageJson.is_active_for at 1.
    destruct (String.eqb (Session.username s) user); simpl.
    + destruct (StorageJson.age_within now (Session.last_activity s) exp);
        simpl; [reflexivity | exact IH].
    + exact IH.
Qed.

Lemma oldest_loop_unset (now : datetime)
    (values : list (Session.dict datetime)) :
  StorageJson.oldest_loop user now exp values None
  = match filter (StorageJson.is_active_for user now exp) values with
    | [] => inr None
    | [s] => inr (Some (StorageJson.with_datetimes s))
    | _ :: _ :: _ => inl (TypeError "fromisoformat: argument must be str")
    end.
Proof.
  induction values as [|s values IH]; simpl.
  - reflexivity.
  - unfold StorageJson.is_active_for at 1.
    destruct (String.eqb (Session.username s) user); simpl.
    + destruct (StorageJson.age_within now (Session.last_activity s) exp);
        simpl; [|exact IH].
      rewrite oldest_loop_set.
      now destruct (filter (StorageJson.is_active_for user now exp) values).
    + exact IH.
Qed.

Lemma json_oldest (w : world) :
  Storage.get_oldest_session json user exp w
  = match active_of user (now_at (ticks w)) (sessions_json w) with
    | [] => Return None (tick w)
    | [s] => Return (Some (StorageJson.with_datetimes s)) (tick w)
    | _ :: _ :: _ =>
        Raise (TypeError "fromisoformat: argument must be str") (tick w)
    end.
Proof.
  simpl. unfold StorageJson.get_oldest_session, bind,
    StorageJson._read_sessions, datetime_now.
  rewrite oldest_loop_unset. unfold active_of.
  destruct (filter _ _) as [|s [|s' l]]; reflexivity.
Qed.

Lemma json_delete (k : string) (w : world) :
  Storage.delete_session json k w
  = if PyDict.mem k (sessions_json w)
    then Return true {| sessions_json := PyDict.del k (sessions_json w);
                        ticks := ticks w |}
    else Return false w.
Proof.
  simpl. unfold StorageJson.delete_session, bind, StorageJson._read_sessions.
  now destruct (PyDict.mem k (sessions_json w)).
Qed.

End QuotaStorage.

(* ================================================================== *)
(** ** The quota: the file as a dictionary *)
(* ================================================================== *)

Section QuotaFile.

Context `{Env}.

Local Abbreviation exp := JWT_EXPIRATION_MINUTES.
Local Abbreviation file := (PyDict.dict (Session.dict datetime)).

Variable user : string.

Lemma well_keyed_tail (k : string) (s : Session.dict datetime) (d : file) :
  well_keyed ((k, s) :: d) ->
  Session.session_id s = k /\ ~ In k (PyDict.keys d) /\ well_keyed d.
Proof.
  intros [Hnodup Hall]. simpl in Hnodup.
  apply NoDup_cons_iff in Hnodup as [Hnotin Hnodup].
  apply Forall_cons_iff in Hall as [Hkey Hall].
  repeat split; assumption.
Qed.

Lemma stored_under_its_id (s : Session.dict datetime) (d : file) :
  well_keyed d -> In s (PyDict.values d) ->
  In (Session.session_id s) (PyDict.keys d).
Proof.
  intros [_ Hall] Hin. unfold PyDict.values in Hin.
  apply in_map_iff in Hin as [[k s'] [Heq Hin]]. simpl in Heq. subst s'.
  rewrite Forall_forall in Hall. specialize (Hall (k, s) Hin).
  simpl in Hall. rewrite Hall. unfold PyDict.keys.
  apply in_map_iff. exists (k, s). split; [reflexivity | exact Hin].
Qed.

Lemma mem_key (k : string) (d : file) :
  In k (PyDict.keys d) -> PyDict.mem k d = true.
Proof.
  unfold PyDict.mem. intros Hin.
  destruct (PyDict.get k d) eqn:Hget; [reflexivity|].
  now apply get_None_not_key in Hget.
Qed.

Lemma keys_del_incl (k x : string) (d : file) :
  In x (PyDict.keys (PyDict.del k d)) -> In x (PyDict.keys d).
Proof.
  induction d as [|[k' s'] d IH]; simpl; [tauto|].
  destruct (String.eqb k' k); simpl.
  - tauto.
  - intros [Heq|Hin]; [now left | right; now apply IH].
Qed.

Lemma well_keyed_del (k : string) (d : file) :
  well_keyed d -> well_keyed (PyDict.del k d).
Proof.
  induction d as [|[k' s'] d IH]; intros Hwk; simpl; [exact Hwk|].
  destruct (well_keyed_tail _ _ _ Hwk) as [Hid [Hnotin Hd]].
  destruct (String.eqb k' k); [exact Hd|].
  destruct (IH Hd) as [Hnodup Hall]. split.
  - simpl. constructor; [|exact Hnodup].
    intros Hin. apply Hnotin. now apply keys_del_incl in Hin.
  - constructor; [exact Hid | exact Hall].
Qed.

Lemma keys_set (k x : string) (v : Session.dict datetime) (d : file) :
  In x (PyDict.keys (PyDict.set k v d)) -> x = k \/ In x (PyDict.keys d).
Proof.
  induction d as [|[k' s'] d IH]; simpl.
  - intros [Heq|[]]. now left.
  - destruct (String.eqb k' k); simpl.
    + intros [Heq|Hin]; right; [now left | now right].
    + intros [Heq|Hin]; [right; now left|].
      destruct (IH Hin) as [Hk|Hd]; [now left | right; now right].
Qed.

Lemma well_keyed_set (k : string) (v : Session.dict datetime) (d : file) :
  Session.session_id v = k -> well_keyed d -> well_keyed (PyDict.set k v d).
Proof.
  intros Hv. induction d as [|[k' s'] d IH]; intros Hwk; simpl.
  - split; [repeat constructor; intros [] | repeat constructor; exact Hv].
  - destruct (well_keyed_tail _ _ _ Hwk) as [Hid [Hnotin Hd]].
    destruct (String.eqb k' k) eqn:Hk.
    + apply String.eqb_eq in Hk. destruct Hd as [Hnodup Hall].
      split.
      * simpl. constructor; assumption.
      * constructor; [simpl; congruence | exact Hall].
    + destruct (IH Hd) as [Hnodup Hall]. split.
      * simpl. constructor; [|exact Hnodup].
        intros Hin. apply keys_set in Hin as [Heq|Hin].
        -- rewrite Heq, String.eqb_refl in Hk. discriminate.
        -- now apply Hnotin.
      * constructor; [exact Hid | exact Hall].
Qed.

(** Deleting the only active session of [user] leaves none. *)
Lemma active_of_del_only (now : datetime) (s : Session.dict datetime)
    (d : file) :
  well_keyed d ->
  active_of user now d = [s] ->
  active_of user now (PyDict.del (Session.session_id s) d) = [].
Proof.
  unfold active_of.
  induction d as [|[k' s'] d IH]; intros Hwk; simpl; [discriminate|].
  destruct (well_keyed_tail _ _ _ Hwk) as [Hid [Hnotin Hd]].
  simpl in Hid.
  destruct (StorageJson.is_active_for user now exp s') eqn:Hact.
  - intros [= -> Hrest].
    rewrite Hid, String.eqb_refl. exact Hrest.
  - intros Hrest.
    assert (Hin : In s (PyDict.values d)).
    { assert (Hs : In s [s]) by (now left).
      rewrite <- Hrest in Hs. now apply filter_In in Hs. }
    apply (stored_under_its_id s d Hd) in Hin.
    destruct (String.eqb k' (Session.session_id s)) eqn:Hk.
    + apply String.eqb_eq in Hk. rewrite <- Hk in Hin. contradiction.
    + simpl. rewrite Hact. now apply IH.
Qed.

(** Writing one session into a file where [user] has no active session
    leaves at most that one. *)
Lemma active_of_set_idle (now : datetime) (k : string)
    (v : Session.dict datetime) (d : file) :
  active_of user now d = [] ->
  active_of user now (PyDict.set k v d)
  = if StorageJson.is_active_for user now exp v then [v] else [].
Proof.
  unfold active_of.
  induction d as [|[k' s'] d IH]; simpl.
  - reflexivity.
  - destruct (StorageJson.is_active_for user now exp s') eqn:Hact;
      [discriminate|].
    intros Hnil. destruct (String.eqb k' k); simpl.
    + rewrite Hnil. reflexivity.
    + rewrite Hact. now apply IH.
Qed.

End QuotaFile.

(* ================================================================== *)
(** ** The quota: the eviction loop and [create_session] *)
(* ================================================================== *)

Section QuotaLoop.

Context `{Env}.

Local Abbreviation json := StorageJson.JSONSessionStorage.
Local Abbreviation exp := JWT_EXPIRATION_MINUTES.

Variable user : string.

(** With no active session of the user the loop deletes nothing. *)
Lemma evict_idle (turns : nat) (max_sessions active_sessions : Z)
    (w : world) :
  active_of user (now_at (ticks w)) (sessions_json w) = [] ->
  exists w' : world,
    Sessions.evict_loop json turns user exp max_sessions active_sessions w
    = Return tt w'
    /\ sessions_json w' = sessions_json w
    /\ (ticks w <= ticks w')%nat.
Proof.
  intros Hnil. destruct turns as [|turns]; cbn [Sessions.evict_loop].
  - exists w. repeat split. lia.
  - destruct (active_sessions >=? max_sessions)%Z.
    + unfold bind. rewrite (json_oldest user w), Hnil.
      exists (tick w). repeat split. simpl. lia.
    + exists w. repeat split. lia.
Qed.

(** What the loop leaves when it returns, and when it raises. *)
Lemma evict_json_cases (turns : nat) (max_sessions active_sessions : Z)
    (w : world) :
  clock_monotone ->
  well_keyed (sessions_json w) ->
  match
    Sessions.evict_loop json turns user exp max_sessions active_sessions w
  with
  | Return _ w' =>
      well_keyed (sessions_json w')
      /\ (ticks w <= ticks w')%nat
      /\ (turns = O \/ (active_sessions < max_sessions)%Z -> w' = w)
      /\ ((1 <= turns)%nat -> (max_sessions <= active_sessions)%Z ->
          idle_from (ticks w) user (sessions_json w'))
      /\ (sessions_json w' = sessions_json w
          \/ exists s : Session.dict datetime,
               active_of user (now_at (ticks w)) (sessions_json w) = [s]
               /\ sessions_json w'
                  = PyDict.del (Session.session_id s) (sessions_json w))
  | Raise _ _ =>
      (2 <= length (active_of user (now_at (ticks w)) (sessions_json w)))%nat
  end.
Proof.
  intros Hmono Hwk. destruct turns as [|turns]; cbn [Sessions.evict_loop].
  - split; [exact Hwk | split; [lia | split; [|split]]].
    + reflexivity.
    + lia.
    + now left.
  - destruct (active_sessions >=? max_sessions)%Z eqn:Hge.
    + unfold bind. rewrite (json_oldest user w).
      destruct (active_of user (now_at (ticks w)) (sessions_json w))
        as [|s [|s' rest]] eqn:Hactive.
      * split; [exact Hwk | split; [simpl; lia | split; [|split]]].
        -- intros [Hturns|Hlt]; [discriminate|].
           apply Z.geb_le in Hge. lia.
        -- intros _ _. now apply idle_later.
        -- now left.
      * cbn [StorageJson.with_datetimes Session.session_id].
        rewrite json_delete. cbn [tick sessions_json ticks].
        assert (Hin : In s (PyDict.values (sessions_json w))).
        { assert (Hs : In s [s]) by (now left).
          rewrite <- Hactive in Hs. now apply filter_In in Hs. }
        rewrite (mem_key _ _ (stored_under_its_id s _ Hwk Hin)).
        assert (Hgone := active_of_del_only user _ s _ Hwk Hactive).
        apply (idle_later user _ _ Hmono) in Hgone.
        destruct (evict_idle turns max_sessions (active_sessions - 1)
                    {| sessions_json :=
                         PyDict.del (Session.session_id s) (sessions_json w);
                       ticks := S (ticks w) |})
          as [w' [Hloop [Hfile Hticks]]].
        { apply Hgone. simpl. lia. }
        rewrite Hloop. simpl in Hfile, Hticks. rewrite Hfile.
        split; [now apply well_keyed_del | split; [lia | split; [|split]]].
        -- intros [Hturns|Hlt]; [discriminate|].
           apply Z.geb_le in Hge. lia.
        -- intros _ _. exact Hgone.
        -- right. exists s. split; reflexivity.
      * simpl. lia.
    + split; [exact Hwk | split; [lia | split; [|split]]].
      * reflexivity.
      * intros _ Hle. rewrite Z.geb_leb in Hge. apply Z.leb_gt in Hge. lia.
      * now left.
Qed.

End QuotaLoop.

Section QuotaCreate.

Context `{Env}.

Local Abbreviation json := StorageJson.JSONSessionStorage.
Local Abbreviation exp := JWT_EXPIRATION_MINUTES.

Variable user : string.

Lemma json_create (session_id : string) (created last : datetime)
    (scopes : option string) (w : world) :
  Storage.create_session json session_id user created last scopes w
  = Return true
      {| sessions_json :=
           PyDict.set session_id
             {| Session.session_id := session_id;
                Session.username := user;
                Session.created_at := created;
                Session.last_activity := last;
                Session.scopes := scopes |} (sessions_json w);
         ticks := ticks w |}.
Proof. reflexivity. Qed.

Lemma turns_for_one (c : nat) : Sessions.turns_for 1 (Z.of_nat c) = c.
Proof. unfold Sessions.turns_for. lia. Qed.

(** [create_session] over the JSON storage: what it leaves when it
    returns, and when it raises.  [w2] is the world after the loop. *)
Lemma create_json_cases (scopes : option string) (w : world) :
  clock_monotone ->
  well_keyed (sessions_json w) ->
  match Sessions.create_session json user scopes w with
  | Return v w' =>
      exists w2 : world,
        well_keyed (sessions_json w2)
        /\ (S (ticks w) <= ticks w2)%nat
        /\ idle_from (S (ticks w)) user (sessions_json w2)
        /\ (sessions_json w2 = sessions_json w
            \/ exists s : Session.dict datetime,
                 active_of user (now_at (S (ticks w))) (sessions_json w)
                 = [s]
                 /\ sessions_json w2
                    = PyDict.del (Session.session_id s) (sessions_json w))
        /\ w' = {| sessions_json :=
                     PyDict.set (uuid4_at (ticks w2))
                       (new_session (uuid4_at (ticks w2)) user
                                    (now_at (S (ticks w2))) scopes)
                       (sessions_json w2);
                   ticks := S (S (ticks w2)) |}
        /\ v = created_view (uuid4_at (ticks w2)) user
                            (now_at (S (ticks w2))) exp scopes
  | Raise _ _ =>
      (2 <= length (active_of user (now_at (S (ticks w)))
                              (sessions_json w)))%nat
  end.
Proof.
  intros Hmono Hwk.
  unfold Sessions.create_session, Sessions.ensure_sessions_table,
    Sessions._get_expiration_minutes, bind.
  change (Storage.ensure_table json w) with (Return tt w).
  cbv beta iota zeta.
  change (Storage.get_user_max_sessions json user w) with (Return 1%Z w).
  cbv beta iota. rewrite (json_count user w). cbv beta iota.
  rewrite turns_for_one.
  set (c := length (active_of user (now_at (ticks w)) (sessions_json w))).
  assert (Hcases := evict_json_cases user c 1 (Z.of_nat c) (tick w)
                      Hmono Hwk).
  destruct (Sessions.evict_loop json c user exp 1 (Z.of_nat c) (tick w))
    as [[] w2|e w2].
  - destruct Hcases as [Hwk2 [Hticks [Hsame [Hidle Hfile]]]].
    unfold uuid4, datetime_now. rewrite json_create.
    exists w2. cbn [tick sessions_json ticks] in *.
    split; [exact Hwk2 | split; [exact Hticks | split; [|split; [|split]]]].
    + destruct c as [|c'] eqn:Hc.
      * rewrite (Hsame (or_introl eq_refl)). cbn [tick sessions_json].
        apply (idle_from_later user (ticks w)); [lia|].
        apply idle_later; [exact Hmono|].
        apply length_zero_iff_nil. exact Hc.
      * apply Hidle; lia.
    + exact Hfile.
    + reflexivity.
    + reflexivity.
  - exact Hcases.
Qed.

End QuotaCreate.

Section QuotaClaims.

Context `{Env}.

Local Abbreviation json := StorageJson.JSONSessionStorage.
Local Abbreviation exp := JWT_EXPIRATION_MINUTES.
Local Abbreviation ttl := (timedelta_minutes JWT_EXPIRATION_MINUTES).

Lemma only_one_is_oldest (s : Session.dict datetime) :
  is_oldest_of s [s].
Proof.
  split; [now left|]. intros s' [<-|[]]. lia.
Qed.

Lemma new_session_active (session_id user : string) (created now : datetime)
    (scopes : option string) :
  StorageJson.is_active_for user now exp
    (new_session session_id user created scopes)
  = (now - created <=? ttl)%Z.
Proof.
  unfold StorageJson.is_active_for, StorageJson.age_within. simpl.
  now rewrite String.eqb_refl.
Qed.

(** After a [create_session] that returned, from the reading of the
    clock that followed its count on: the file holds the new session, and
    no other session of the user is active. *)
Lemma create_json_returned (user : string) (scopes : option string)
    (w w' : world) (v : view) :
  clock_monotone ->
  well_keyed (sessions_json w) ->
  Sessions.create_session json user scopes w = Return v w' ->
  exists (session_id : string) (before : PyDict.dict (Session.dict datetime)),
    let now := now_at (pred (ticks w')) in
    let new := new_session session_id user now scopes in
    well_keyed (sessions_json w')
    /\ (S (S (S (ticks w))) <= ticks w')%nat
    /\ v = created_view session_id user now exp scopes
    /\ sessions_json w' = PyDict.set session_id new before
    /\ (before = sessions_json w
        \/ exists s : Session.dict datetime,
             active_of user (now_at (S (ticks w))) (sessions_json w) = [s]
             /\ before = PyDict.del (Session.session_id s) (sessions_json w))
    /\ (forall n : nat,
           (S (ticks w) <= n)%nat ->
           active_of user (now_at n) (sessions_json w')
           = if (now_at n - now <=? ttl)%Z then [new] else []).
Proof.
  intros Hmono Hwk Hcreate.
  assert (Hcases := create_json_cases user scopes w Hmono Hwk).
  rewrite Hcreate in Hcases.
  destruct Hcases as [w2 [Hwk2 [Hticks [Hidle [Hfile [Hw' Hv]]]]]].
  exists (uuid4_at (ticks w2)), (sessions_json w2).
  subst w'. cbn [sessions_json ticks pred].
  split; [|split; [|split; [|split; [|split]]]].
  - apply well_keyed_set; [reflexivity | exact Hwk2].
  - lia.
  - exact Hv.
  - reflexivity.
  - exact Hfile.
  - intros n Hn.
    rewrite (active_of_set_idle user); [|now apply Hidle].
    now rewrite new_session_active.
Qed.

(** Any number of logins of a user, one after the other, all return and
    keep the file within the quota. *)
Lemma logins_always_return (user : string) (scopes : option string)
    (n : nat) :
  clock_monotone ->
  forall w : world,
    well_keyed (sessions_json w) ->
    (length (active_of user (now_at (ticks w)) (sessions_json w)) <= 1)%nat ->
    exists w' : world,
      repeated n (Sessions.create_session json user scopes) w = Return tt w'
      /\ well_keyed (sessions_json w')
      /\ (length (active_of user (now_at (ticks w')) (sessions_json w'))
          <= 1)%nat.
Proof.
  intros Hmono. induction n as [|n IH]; intros w Hwk Hone; simpl.
  - exists w. split; [reflexivity | split; assumption].
  - unfold bind.
    assert (Hcases := create_json_cases user scopes w Hmono Hwk).
    destruct (Sessions.create_session json user scopes w)
      as [v w1|e w1] eqn:Hcreate.
    2:{ assert (Hlater := active_count_later user (ticks w) (S (ticks w))
                            (sessions_json w) Hmono). lia. }
    clear Hcases.
    destruct (create_json_returned user scopes w w1 v Hmono Hwk Hcreate)
      as [sid [before [Hwk1 [Hticks [_ [_ [_ Hactive]]]]]]].
    apply IH; [exact Hwk1|].
    rewrite Hactive by lia. destruct (_ <=? _)%Z; simpl; lia.
Qed.


End QuotaClaims.

Lemma minute_clock_monotone : clock_monotone (H := minute_env).
Proof.
  intros m n Hle. simpl. unfold timedelta_minutes. lia.
Qed.


(* ================================================================== *)
(** ** Runs *)
(* ================================================================== *)

(** Two logins of ["alice"], a minute apart on the clock of [minute_env]:
    the first session is deleted when the second is created. *)
Example two_logins :
  bind (Sessions.create_session (H := minute_env) minute_json "alice" None)
       (fun _ =>
          Sessions.create_session (H := minute_env) minute_json "alice"
                                  (Some "admin"))
       empty_world
  = Return
      (created_view "sid-5" "alice" 360000000 30 (Some "admin"))
      {| sessions_json :=
           [("sid-5", new_session "sid-5" "alice" 360000000 (Some "admin"))];
         ticks := 7 |}.
Proof. reflexivity. Qed.

(** With two active sessions of one user in the file,
    [get_oldest_session] raises: [oldest] carries a [datetime], which
    [datetime.fromisoformat] refuses.  The quota of one session keeps the
    JSON storage away from such a file as long as the clock does not go
    back. *)
Example oldest_of_two_raises :
  Storage.get_oldest_session minute_json "alice" 30
    {| sessions_json :=
         [ ("sid-0", alice_session);
           ("sid-1", new_session "sid-1" "alice" 60000000 None) ];
       ticks := 2 |}
  = Raise (TypeError "fromisoformat: argument must be str")
      {| sessions_json :=
           [ ("sid-0", alice_session);
             ("sid-1", new_session "sid-1" "alice" 60000000 None) ];
         ticks := 3 |}.
Proof. reflexivity. Qed.

(** A peek and a renewal of the same session, five minutes after the
    login. *)
Example peek_then_renew :
  Sessions.validate_session (H := minute_env) minute_json "sid-0"
                            (Some false) (alice_world 5)
  = Return
      (Some (session_view "sid-0" "alice" 0 0 30 (Some "billing:read")))
      (alice_world 6)
  /\ Sessions.validate_session (H := minute_env) minute_json "sid-0" None
                               (alice_world 6)
     = Return
         (Some (session_view "sid-0" "alice" 0 420000000 30
                             (Some "billing:read")))
         {| sessions_json :=
              [("sid-0",
                StorageJson.set_last_activity 420000000 alice_session)];
            ticks := 8 |}.
Proof. split; reflexivity. Qed.

(** A request through the wrapper of [require_auth('billing:read')]. *)
Example guarded_request :
  Middleware.require_auth (H := minute_env) minute_json Re.re_match
    (Some "billing:read")
    (Some {| Middleware.headers := Some (Some "Bearer sid-0");
             Middleware.cookies := None;
             Middleware.has_json := true |})
    None (alice_world 5)
  = Return
      (Middleware.Handler
         (session_view "sid-0" "alice" 0 360000000 30
                       (Some "billing:read")))
      {| sessions_json :=
           [("sid-0",
             StorageJson.set_last_activity 360000000 alice_session)];
         ticks := 7 |}.
Proof. reflexivity. Qed.

(** The granted string is cut at its commas as well. *)
Example granted_string_is_cut :
  Middleware.split_strip "billing:read,write" = ["billing:read"; "write"]
  /\ Middleware.require_auth_scopes Re.re_match (Some "write")
                                    (Some "billing:read,write") = Some true.
Proof. split; reflexivity. Qed.

(* ################################################################## *)
(** * Further properties *)
(* ################################################################## *)

(* ================================================================== *)
(** ** More on dictionaries *)
(* ================================================================== *)

Section MoreDictProperties.

Context {V : Type}.

Lemma get_del_other (k k0 : string) (d : PyDict.dict V) :
  k0 <> k -> PyDict.get k0 (PyDict.del k d) = PyDict.get k0 d.
Proof.
  intros Hne. induction d as [|[k' v'] d IH]; simpl; [reflexivity|].
  destruct (String.eqb k' k) eqn:Hk; simpl.
  - apply String.eqb_eq in Hk. subst k'.
    destruct (String.eqb k k0) eqn:Hk0; [|reflexivity].
    apply String.eqb_eq in Hk0. congruence.
  - now rewrite IH.
Qed.

Lemma keys_set_present (k : string) (v v0 : V) (d : PyDict.dict V) :
  PyDict.get k d = Some v0 ->
  PyDict.keys (PyDict.set k v d) = PyDict.keys d.
Proof.
  induction d as [|[k' v'] d IH]; simpl; [discriminate|].
  destruct (String.eqb k' k); simpl.
  - reflexivity.
  - intros Hget. now rewrite IH.
Qed.

Lemma keys_set_absent (k : string) (v : V) (d : PyDict.dict V) :
  PyDict.get k d = None ->
  PyDict.keys (PyDict.set k v d) = PyDict.keys d ++ [k].
Proof.
  induction d as [|[k' v'] d IH]; simpl; [reflexivity|].
  destruct (String.eqb k' k); simpl; [discriminate|].
  intros Hget. now rewrite IH.
Qed.

Lemma del_absent (k : string) (d : PyDict.dict V) :
  PyDict.get k d = None -> PyDict.del k d = d.
Proof.
  induction d as [|[k' v'] d IH]; simpl; [reflexivity|].
  destruct (String.eqb k' k); [discriminate|].
  intros Hget. now rewrite IH.
Qed.

(** Deleting keys that are not the first key leaves the first entry. *)
Lemma fold_del_head (ks : list string) (k : string) (v : V) :
  ~ In k ks ->
  forall d : PyDict.dict V,
    fold_left (fun d x => PyDict.del x d) ks ((k, v) :: d)
    = (k, v) :: fold_left (fun d x => PyDict.del x d) ks d.
Proof.
  induction ks as [|x ks IH]; intros Hnotin d; simpl; [reflexivity|].
  destruct (String.eqb k x) eqn:Hk.
  - apply String.eqb_eq in Hk. exfalso. apply Hnotin. now left.
  - apply IH. intros Hin. apply Hnotin. now right.
Qed.

(** Deleting the keys of the entries that [p] picks leaves the others, in
    their order. *)
Lemma fold_del_filter (p : string * V -> bool) (d : PyDict.dict V) :
  NoDup (PyDict.keys d) ->
  fold_left (fun d x => PyDict.del x d) (map fst (filter p d)) d
  = filter (fun e => negb (p e)) d.
Proof.
  induction d as [|[k v] d IH]; intros Hnodup; simpl; [reflexivity|].
  apply NoDup_cons_iff in Hnodup as [Hnotin Hnodup].
  destruct (p (k, v)) eqn:Hp; simpl.
  - rewrite String.eqb_refl. now apply IH.
  - rewrite fold_del_head.
    + now rewrite IH.
    + intros Hin. apply Hnotin. apply in_map_iff in Hin as [e [Hfst Hin]].
      apply filter_In in Hin as [Hin _].
      unfold PyDict.keys. apply in_map_iff. now exists e.
Qed.

Lemma filter_none_all {A} (p : A -> bool) (l : list A) :
  filter p l = [] -> filter (fun x => negb (p x)) l = l.
Proof.
  induction l as [|a l IH]; simpl; [reflexivity|].
  destruct (p a); [discriminate|]. intros Hnil. simpl. now rewrite IH.
Qed.

End MoreDictProperties.

(* ================================================================== *)
(** ** The JSON storage, call by call *)
(* ================================================================== *)

Section StorageJsonProperties.

Context `{Env}.

Local Abbreviation json := StorageJson.JSONSessionStorage.

(** X1.  [create_session] of the JSON storage always answers [True]; the
    session is then read back by [get_session] with the fields that were
    given, whether or not the identifier was in the file before, and no
    other identifier is touched. *)
Theorem stored_session_is_read_back (session_id user : string)
    (created last : datetime) (scopes : option string) (w : world) :
  exists w1 : world,
    Storage.create_session json session_id user created last scopes w
    = Return true w1
    /\ ticks w1 = ticks w
    /\ Storage.get_session json session_id w1
       = Return
           (Some {| Session.session_id := session_id;
                    Session.username := user;
                    Session.created_at := DateTime created;
                    Session.last_activity := DateTime last;
                    Session.scopes := scopes |}) w1
    /\ (forall other : string,
           other <> session_id ->
           PyDict.get other (sessions_json w1)
           = PyDict.get other (sessions_json w))
    /\ (PyDict.mem session_id (sessions_json w) = true ->
        PyDict.keys (sessions_json w1) = PyDict.keys (sessions_json w)).
Proof.
  rewrite json_create. eexists. split; [reflexivity|].
  cbn [ticks sessions_json].
  split; [reflexivity | split; [|split]].
  - rewrite json_get_session. cbn [sessions_json].
    now rewrite get_set_same.
  - intros other Hne. now apply get_set_other.
  - unfold PyDict.mem. intros Hmem.
    destruct (PyDict.get session_id (sessions_json w)) as [s0|] eqn:Hget;
      [|discriminate].
    now apply keys_set_present with (v0 := s0).
Qed.

(** X2.  [delete_session] answers whether the identifier was in the file.
    Afterwards [get_session] finds nothing under it, the other
    identifiers are as before, and a second [delete_session] answers
    [False]; when it answers [False] the world is as it was. *)
Theorem deleted_session_is_gone (session_id : string) (w : world) :
  NoDup (PyDict.keys (sessions_json w)) ->
  exists w1 : world,
    Storage.delete_session json session_id w
    = Return (PyDict.mem session_id (sessions_json w)) w1
    /\ (PyDict.mem session_id (sessions_json w) = false -> w1 = w)
    /\ Storage.get_session json session_id w1 = Return None w1
    /\ (forall other : string,
           other <> session_id ->
           PyDict.get other (sessions_json w1)
           = PyDict.get other (sessions_json w))
    /\ Storage.delete_session json session_id w1 = Return false w1.
Proof.
  intros Hnodup. rewrite json_delete. unfold PyDict.mem.
  destruct (PyDict.get session_id (sessions_json w)) as [s|] eqn:Hget.
  - eexists. split; [reflexivity|].
    assert (Hgone : PyDict.get session_id
                      (PyDict.del session_id (sessions_json w)) = None)
      by now apply get_del_same.
    split; [discriminate | split; [|split]].
    + rewrite json_get_session. cbn [sessions_json]. now rewrite Hgone.
    + intros other Hne. now apply get_del_other.
    + rewrite json_delete. unfold PyDict.mem. cbn [sessions_json].
      now rewrite Hgone.
  - exists w. split; [reflexivity | split; [reflexivity | split; [|split]]].
    + rewrite json_get_session. now rewrite Hget.
    + reflexivity.
    + rewrite json_delete. unfold PyDict.mem. now rewrite Hget.
Qed.

(** X3.  [update_last_activity] answers [False] and changes nothing when
    the identifier is not in the file.  When it is, the answer is [True],
    the stored [last_activity] is the given one, the other fields of the
    session, the order of the file and the other sessions are as before. *)
Theorem update_touches_only_last_activity (session_id : string)
    (t : datetime) (w : world) :
  match PyDict.get session_id (sessions_json w) with
  | None =>
      Storage.update_last_activity json session_id t w = Return false w
  | Some s =>
      exists (w1 : world) (s1 : Session.dict datetime),
        Storage.update_last_activity json session_id t w = Return true w1
        /\ ticks w1 = ticks w
        /\ PyDict.get session_id (sessions_json w1) = Some s1
        /\ Session.last_activity s1 = t
        /\ Session.session_id s1 = Session.session_id s
        /\ Session.username s1 = Session.username s
        /\ Session.created_at s1 = Session.created_at s
        /\ Session.scopes s1 = Session.scopes s
        /\ PyDict.keys (sessions_json w1) = PyDict.keys (sessions_json w)
        /\ (forall other : string,
               other <> session_id ->
               PyDict.get other (sessions_json w1)
               = PyDict.get other (sessions_json w))
  end.
Proof.
  destruct (PyDict.get session_id (sessions_json w)) as [s|] eqn:Hget.
  - exists {| sessions_json :=
                PyDict.set session_id (StorageJson.set_last_activity t s)
                           (sessions_json w);
              ticks := ticks w |}, (StorageJson.set_last_activity t s).
    split; [now apply json_update_found|]. cbn [sessions_json ticks].
    split; [reflexivity|].
    split; [apply get_set_same|].
    repeat (split; [reflexivity|]).
    split.
    + now apply keys_set_present with (v0 := s).
    + intros other Hne. now apply get_set_other.
  - now apply json_update_missing.
Qed.

(** X4.  [delete_user_sessions] answers the number of sessions of the
    user in the file and leaves the sessions of the other users, in their
    order; none of the user is left. *)
Theorem user_sessions_are_all_deleted (user : string) (w : world) :
  NoDup (PyDict.keys (sessions_json w)) ->
  Storage.delete_user_sessions json user w
  = Return
      (Z.of_nat
         (length (filter (fun '(sid, s) =>
                            String.eqb (Session.username s) user)
                         (sessions_json w))))
      {| sessions_json :=
           filter (fun '(sid, s) =>
                     negb (String.eqb (Session.username s) user))
                  (sessions_json w);
         ticks := ticks w |}.
Proof.
  intros Hnodup. simpl.
  unfold StorageJson.delete_user_sessions, bind, StorageJson._read_sessions.
  set (p := fun '(sid, s) =>
              String.eqb (@Session.username datetime s) user).
  assert (Hrest : filter (fun '(sid, s) =>
                            negb (String.eqb (@Session.username datetime s)
                                             user)) (sessions_json w)
                  = filter (fun e => negb (p e)) (sessions_json w)).
  { apply filter_ext. now intros [sid s]. }
  rewrite Hrest.
  destruct (map fst (filter p (sessions_json w))) as [|k ks] eqn:Hdel.
  - cbv beta iota. unfold ret.
    assert (Hnone : filter p (sessions_json w) = []).
    { destruct (filter p (sessions_json w)); [reflexivity|discriminate]. }
    rewrite Hnone, (filter_none_all p _ Hnone). simpl.
    now destruct w.
  - cbv beta iota. unfold StorageJson._write_sessions, ret.
    rewrite <- Hdel. unfold StorageJson.delete_all.
    rewrite (fold_del_filter p _ Hnodup).
    now rewrite length_map.
Qed.

Lemma age_within_not_expired (now last : datetime) (expiration : Z) :
  StorageJson.age_within now last expiration
  = negb (now >? last + timedelta_minutes expiration)%Z.
Proof.
  unfold StorageJson.age_within. rewrite Z.gtb_ltb.
  destruct (Z.leb_spec (now - last) (timedelta_minutes expiration));
    destruct (Z.ltb_spec (last + timedelta_minutes expiration) now);
    simpl; try reflexivity; lia.
Qed.


(** X6.  [get_oldest_session] answers [None] when the user has no active
    session and the session when the user has exactly one; with two or
    more active sessions of the user in the file it raises [TypeError],
    whatever their order and their timestamps. *)
Theorem oldest_session_cases (user : string) (w : world) :
  (active_of user (now_at (ticks w)) (sessions_json w) = [] ->
   Storage.get_oldest_session json user JWT_EXPIRATION_MINUTES w
   = Return None (tick w))
  /\ (forall s : Session.dict datetime,
         active_of user (now_at (ticks w)) (sessions_json w) = [s] ->
         Storage.get_oldest_session json user JWT_EXPIRATION_MINUTES w
         = Return (Some (StorageJson.with_datetimes s)) (tick w))
  /\ ((2 <= length (active_of user (now_at (ticks w)) (sessions_json w)))%nat
      -> Storage.get_oldest_session json user JWT_EXPIRATION_MINUTES w
         = Raise (TypeError "fromisoformat: argument must be str") (tick w)).
Proof.
  rewrite (json_oldest user w).
  destruct (active_of user (now_at (ticks w)) (sessions_json w))
    as [|s [|s' rest]].
  - split; [reflexivity | split; [discriminate | simpl; lia]].
  - split; [discriminate | split; [now intros s0 [= <-] | simpl; lia]].
  - split; [discriminate | split; [discriminate | reflexivity]].
Qed.


Lemma min_by_last_activity_spec (rest : list (string * Session.dict datetime)) :
  forall best : string * Session.dict datetime,
    In (StorageJson.min_by_last_activity best rest) (best :: rest)
    /\ forall x, In x (best :: rest) ->
         (Session.last_activity
            (snd (StorageJson.min_by_last_activity best rest))
          <= Session.last_activity (snd x))%Z.
Proof.
  induction rest as [|y rest IH]; intros best; simpl.
  - split; [now left|]. intros x [<-|[]]. lia.
  - destruct (Z.ltb_spec (Session.last_activity (snd y))
                         (Session.last_activity (snd best))) as [Hlt|Hge].
    + destruct (IH y) as [Hin Hmin]. split.
      * destruct Hin as [<-|Hin]; [right; now left | right; now right].
      * intros x [<-|[<-|Hx]].
        -- specialize (Hmin y (or_introl eq_refl)). lia.
        -- apply Hmin. now left.
        -- apply Hmin. now right.
    + destruct (IH best) as [Hin Hmin]. split.
      * destruct Hin as [<-|Hin]; [now left | right; now right].
      * intros x [<-|[<-|Hx]].
        -- apply Hmin. now left.
        -- specialize (Hmin best (or_introl eq_refl)). lia.
        -- apply Hmin. now right.
Qed.

(** X8.  [delete_oldest_session] answers [False] and changes nothing when
    the user has no session in the file.  Otherwise it answers [True] and
    deletes one session of the user whose [last_activity] is the smallest
    among all the sessions of the user, expired or not. *)
Theorem delete_oldest_ignores_expiry (user : string) (w : world) :
  ((forall (k : string) (s : Session.dict datetime),
       In (k, s) (sessions_json w) -> Session.username s <> user) ->
   Storage.delete_oldest_session json user w = Return false w)
  /\ (forall (k0 : string) (s0 : Session.dict datetime),
         In (k0, s0) (sessions_json w) -> Session.username s0 = user ->
         exists (k : string) (s : Session.dict datetime),
           In (k, s) (sessions_json w)
           /\ Session.username s = user
           /\ (forall (k' : string) (s' : Session.dict datetime),
                  In (k', s') (sessions_json w) ->
                  Session.username s' = user ->
                  (Session.last_activity s <= Session.last_activity s')%Z)
           /\ Storage.delete_oldest_session json user w
              = Return true
                  {| sessions_json := PyDict.del k (sessions_json w);
                     ticks := ticks w |}).
Proof.
  simpl. unfold StorageJson.delete_oldest_session, bind,
    StorageJson._read_sessions.
  set (p := fun '(sid, s) =>
              String.eqb (@Session.username datetime s) user).
  split.
  - intros Hnone.
    assert (Hnil : filter p (sessions_json w) = []).
    { apply filter_nil_iff. intros [k s] Hin. unfold p.
      apply String.eqb_neq. now apply (Hnone k s). }
    now rewrite Hnil.
  - intros k0 s0 Hin0 Huser0.
    destruct (filter p (sessions_json w)) as [|first others] eqn:Hsel.
    { exfalso. rewrite filter_nil_iff in Hsel.
      specialize (Hsel (k0, s0) Hin0). unfold p in Hsel.
      apply String.eqb_neq in Hsel. contradiction. }
    destruct (min_by_last_activity_spec others first) as [Hin Hmin].
    destruct (StorageJson.min_by_last_activity first others)
      as [k s] eqn:Holdest.
    rewrite <- Hsel in Hin, Hmin.
    apply filter_In in Hin as [Hin Hp].
    exists k, s. split; [exact Hin|].
    split; [now apply String.eqb_eq in Hp|split].
    + intros k' s' Hin' Huser'.
      apply (Hmin (k', s')). apply filter_In. split; [exact Hin'|].
      unfold p. now apply String.eqb_eq.
    + reflexivity.
Qed.

End StorageJsonProperties.

(* ================================================================== *)
(** ** The life of a session *)
(* ================================================================== *)

Section LifeOfASession.

Context `{Env}.

Local Abbreviation json := StorageJson.JSONSessionStorage.
Local Abbreviation exp := JWT_EXPIRATION_MINUTES.
Local Abbreviation ttl := (timedelta_minutes JWT_EXPIRATION_MINUTES).

(** The loop of [create_session] only deletes, and only reads the
    clock. *)
Lemma evict_json_only_deletes (user : string) (max_sessions : Z)
    (turns : nat) :
  forall (active_sessions : Z) (w : world),
    let after :=
      world_after (Sessions.evict_loop json turns user exp max_sessions
                                       active_sessions w) in
    (forall e, In e (sessions_json after) -> In e (sessions_json w))
    /\ (ticks w <= ticks after)%nat.
Proof.
  induction turns as [|turns IH]; intros active_sessions w;
    cbn [Sessions.evict_loop].
  - split; [tauto | simpl; lia].
  - destruct (active_sessions >=? max_sessions)%Z;
      [|split; [tauto | simpl; lia]].
    unfold bind. rewrite (json_oldest user w).
    destruct (active_of user (now_at (ticks w)) (sessions_json w))
      as [|s [|s' rest]].
    + split; [tauto | simpl; lia].
    + rewrite json_delete. cbn [tick sessions_json ticks].
      destruct (PyDict.mem _ (sessions_json w)).
      * specialize (IH (active_sessions - 1)%Z
                      {| sessions_json :=
                           PyDict.del
                             (Session.session_id
                                (StorageJson.with_datetimes s))
                             (sessions_json w);
                         ticks := S (ticks w) |}).
        cbv zeta in IH. destruct IH as [Hsub Hticks].
        cbn [sessions_json ticks] in Hsub, Hticks. split.
        -- intros [k x] Hin. apply Hsub in Hin.
           clear - Hin. induction (sessions_json w) as [|[k' v'] d IHd];
             simpl in *; [contradiction|].
           destruct (String.eqb k' _); [now right|].
           destruct Hin as [Heq|Hin]; [now left | right; now apply IHd].
        -- lia.
      * specialize (IH (active_sessions - 1)%Z (tick w)).
        cbv zeta in IH. destruct IH as [Hsub Hticks].
        cbn [tick sessions_json ticks] in Hsub, Hticks.
        split; [exact Hsub | lia].
    + split; [tauto | simpl; lia].
Qed.

(** What [create_session] has stored when it returns. *)
Lemma create_json_stores (user : string) (scopes : option string)
    (w w' : world) (v : view) :
  Sessions.create_session json user scopes w = Return v w' ->
  exists (session_id : string) (before : PyDict.dict (Session.dict datetime)),
    let now := now_at (pred (ticks w')) in
    v = created_view session_id user now exp scopes
    /\ sessions_json w'
       = PyDict.set session_id (new_session session_id user now scopes)
                    before
    /\ (forall e, In e before -> In e (sessions_json w))
    /\ (S (S (S (ticks w))) <= ticks w')%nat.
Proof.
  unfold Sessions.create_session, Sessions.ensure_sessions_table,
    Sessions._get_expiration_minutes, bind.
  change (Storage.ensure_table json w) with (Return tt w).
  cbv beta iota zeta.
  change (Storage.get_user_max_sessions json user w) with (Return 1%Z w).
  cbv beta iota. rewrite (json_count user w). cbv beta iota.
  set (c := Z.of_nat _).
  assert (Hloop := evict_json_only_deletes user 1 (Sessions.turns_for 1 c)
                     c (tick w)).
  cbv zeta in Hloop.
  destruct (Sessions.evict_loop json _ user exp 1 c (tick w))
    as [[] w2|e w2]; [|discriminate].
  cbn [world_after tick sessions_json ticks] in Hloop.
  destruct Hloop as [Hsub Hticks].
  unfold uuid4, datetime_now. rewrite json_create.
  cbn [tick sessions_json ticks]. intros [= <- <-].
  exists (uuid4_at (ticks w2)), (sessions_json w2).
  cbn [sessions_json ticks pred].
  split; [reflexivity | split; [reflexivity | split; [exact Hsub | lia]]].
Qed.

(** X9.  The session [create_session] returns can be validated: as long
    as its [expires_at] has not passed, [validate_session] with the
    returned [session_id] answers the same user, scopes, [created_at] and
    [expires_at], with [last_activity] equal to [created_at]; once it has
    passed the answer is [None]. *)
Theorem created_session_validates (user : string) (scopes : option string)
    (w w' : world) (v : view) :
  Sessions.create_session json user scopes w = Return v w' ->
  exists (session_id : string) (created : datetime),
    v = created_view session_id user created exp scopes
    /\ PyDict.get "session_id" v = Some (PyStr session_id)
    /\ PyDict.get "expires_at" v = Some (PyIso (created + ttl)%Z)
    /\ ((now_at (ticks w') <= created + ttl)%Z ->
        Sessions.validate_session json session_id (Some false) w'
        = Return
            (Some (session_view session_id user created created exp scopes))
            (tick w'))
    /\ ((now_at (ticks w') > created + ttl)%Z ->
        forall renew : option bool,
          Sessions.validate_session json session_id renew w'
          = Return None (tick w')).
Proof.
  intros Hcreate.
  destruct (create_json_stores user scopes w w' v Hcreate)
    as [sid [before [Hv [Hfile _]]]]. cbv zeta in Hv, Hfile.
  exists sid, (now_at (pred (ticks w'))).
  assert (Hget : PyDict.get sid (sessions_json w')
                 = Some (new_session sid user (now_at (pred (ticks w')))
                                     scopes)).
  { rewrite Hfile. apply get_set_same. }
  split; [exact Hv|]. subst v.
  split; [reflexivity | split; [reflexivity | split]].
  - intros Hlive.
    now rewrite (json_validate_peek sid w' _ Hget Hlive).
  - intros Hexpired renew.
    exact (json_validate_expired sid renew w' _ Hget Hexpired).
Qed.

(** X10.  A renewal is read back: after [validate_session] with renewal,
    a [validate_session] without renewal answers the time of the renewal
    as [last_activity] and the stored user, scopes and [created_at], as
    long as the renewed session has not expired. *)
Theorem renewal_is_read_back (session_id : string) (w : world)
    (s : Session.dict datetime) :
  PyDict.get session_id (sessions_json w) = Some s ->
  (now_at (ticks w) <= Session.last_activity s + ttl)%Z ->
  (now_at (S (S (ticks w))) <= now_at (S (ticks w)) + ttl)%Z ->
  bind (Sessions.validate_session json session_id (Some true))
       (fun _ => Sessions.validate_session json session_id (Some false)) w
  = Return
      (Some (session_view (Session.session_id s) (Session.username s)
               (Session.created_at s) (now_at (S (ticks w))) exp
               (Session.scopes s)))
      (tick (renewed session_id (now_at (S (ticks w))) s w)).
Proof.
  intros Hget Hlive Hstill. unfold bind.
  rewrite (json_validate_renew session_id w s Hget Hlive).
  apply json_validate_peek
    with (s := StorageJson.set_last_activity (now_at (S (ticks w))) s).
  - unfold renewed. cbn [sessions_json]. apply get_set_same.
  - exact Hstill.
Qed.

Lemma In_del (k : string) (e : string * Session.dict datetime)
    (d : PyDict.dict (Session.dict datetime)) :
  In e (PyDict.del k d) -> In e d.
Proof.
  induction d as [|[k' v'] d IH]; simpl; [tauto|].
  destruct (String.eqb k' k); [now right|].
  intros [Heq|Hin]; [now left | right; now apply IH].
Qed.

Lemma In_delete_all (ks : list string) :
  forall (d : PyDict.dict (Session.dict datetime))
         (e : string * Session.dict datetime),
    In e (StorageJson.delete_all ks d) -> In e d.
Proof.
  unfold StorageJson.delete_all.
  induction ks as [|k ks IH]; intros d e; simpl; [tauto|].
  intros Hin. apply IH in Hin. now apply In_del in Hin.
Qed.

Lemma In_set (k0 : string) (v : Session.dict datetime)
    (e : string * Session.dict datetime)
    (d : PyDict.dict (Session.dict datetime)) :
  In e (PyDict.set k0 v d) -> snd e = v \/ In e d.
Proof.
  induction d as [|[k' v'] d IH]; simpl.
  - intros [<-|[]]. now left.
  - destruct (String.eqb k' k0); simpl.
    + intros [<-|Hin]; [now left | right; now right].
    + intros [<-|Hin]; [right; now left|].
      destruct (IH Hin) as [Hv|Hd]; [now left | right; now right].
Qed.

(** A part of the file, seen later, is chronological when the file was. *)
Lemma chronological_part (w w' : world) :
  (forall e, In e (sessions_json w') -> In e (sessions_json w)) ->
  (ticks w <= ticks w')%nat ->
  chronological w -> chronological w'.
Proof.
  intros Hsub Hticks Hchron k s Hin.
  destruct (Hchron k s (Hsub _ Hin)) as [Hcreated Hlast].
  split; [exact Hcreated|]. intros n Hn. apply Hlast. lia.
Qed.

(** One more session, stamped with a reading already taken. *)
Lemma chronological_set (w : world) (k : string)
    (v : Session.dict datetime)
    (before : PyDict.dict (Session.dict datetime)) (t t' : nat) :
  clock_monotone ->
  chronological w ->
  (forall e, In e before -> In e (sessions_json w)) ->
  (Session.created_at v <= Session.last_activity v)%Z ->
  Session.last_activity v = now_at t ->
  (t < t')%nat -> (ticks w <= t')%nat ->
  chronological {| sessions_json := PyDict.set k v before; ticks := t' |}.
Proof.
  intros Hmono Hchron Hsub Hv Hlast Ht Hticks k' s Hin.
  cbn [sessions_json ticks] in *.
  apply In_set in Hin as [Heq|Hin]; [simpl in Heq|].
  - subst s. split; [exact Hv|]. intros n Hn. rewrite Hlast.
    apply Hmono. lia.
  - destruct (Hchron k' s (Hsub _ Hin)) as [Hcreated Hl].
    split; [exact Hcreated|]. intros n Hn. apply Hl. lia.
Qed.

Lemma create_json_raised (user : string) (scopes : option string)
    (w w' : world) (e : exn) :
  Sessions.create_session json user scopes w = Raise e w' ->
  (forall x, In x (sessions_json w') -> In x (sessions_json w))
  /\ (ticks w <= ticks w')%nat.
Proof.
  unfold Sessions.create_session, Sessions.ensure_sessions_table,
    Sessions._get_expiration_minutes, bind.
  change (Storage.ensure_table json w) with (Return tt w).
  cbv beta iota zeta.
  change (Storage.get_user_max_sessions json user w) with (Return 1%Z w).
  cbv beta iota. rewrite (json_count user w). cbv beta iota.
  set (c := Z.of_nat _).
  assert (Hloop := evict_json_only_deletes user 1 (Sessions.turns_for 1 c)
                     c (tick w)).
  cbv zeta in Hloop.
  destruct (Sessions.evict_loop json _ user exp 1 c (tick w))
    as [[] w2|e2 w2].
  - unfold uuid4, datetime_now. rewrite json_create. discriminate.
  - cbn [world_after tick sessions_json ticks] in Hloop.
    intros [= <- <-]. destruct Hloop as [Hsub Hticks].
    split; [exact Hsub | lia].
Qed.

(** X11.  With a clock that does not go back, the calls of the session
    manager keep the file chronological: every stored session has
    [created_at <= last_activity], and no [last_activity] lies after what
    the clock shows next.  So a renewal never moves [expires_at] back. *)
Theorem timestamps_stay_chronological (w : world) :
  clock_monotone ->
  chronological w ->
  (forall (user : string) (scopes : option string),
      chronological
        (world_after (Sessions.create_session json user scopes w)))
  /\ (forall (session_id : string) (renew : option bool),
         chronological
           (world_after (Sessions.validate_session json session_id renew w)))
  /\ (forall session_id : string,
         chronological
           (world_after (Sessions.delete_session json session_id w)))
  /\ (forall user : string,
         chronological
           (world_after (Sessions.delete_user_sessions json user w)))
  /\ chronological (world_after (Sessions.cleanup_expired_sessions json w))
  /\ (forall (session_id : string) (s : Session.dict datetime),
         PyDict.get session_id (sessions_json w) = Some s ->
         (Session.last_activity s + ttl <= now_at (S (ticks w)) + ttl)%Z).
Proof.
  intros Hmono Hchron. split; [|split; [|split; [|split; [|split]]]].
  - intros user scopes.
    destruct (Sessions.create_session json user scopes w)
      as [v w'|e w'] eqn:Hcreate; cbn [world_after].
    + destruct (create_json_stores user scopes w w' v Hcreate)
        as [sid [before [_ [Hfile [Hsub Hticks]]]]]. cbv zeta in Hfile.
      destruct w' as [file' ticks']. cbn [sessions_json ticks] in *.
      subst file'.
      apply (chronological_set w sid _ before (pred ticks') ticks');
        try assumption; simpl; lia.
    + destruct (create_json_raised user scopes w w' e Hcreate)
        as [Hsub Hticks].
      now apply (chronological_part w w').
  - intros session_id renew.
    destruct (PyDict.get session_id (sessions_json w)) as [s|] eqn:Hget.
    + destruct (Z_le_gt_dec (now_at (ticks w)) (Session.last_activity s + ttl))
        as [Hlive|Hexpired].
      * destruct renew as [[|]|].
        -- rewrite (json_validate_renew session_id w s Hget Hlive).
           cbn [world_after]. unfold renewed.
           destruct (Hchron session_id s (get_In _ _ _ Hget))
             as [Hcreated Hlast].
           apply (chronological_set w session_id _ (sessions_json w)
                    (S (ticks w)) (S (S (ticks w))));
             try assumption; try tauto; simpl; try lia.
           specialize (Hlast (S (ticks w))). lia.
        -- rewrite (json_validate_peek session_id w s Hget Hlive).
           cbn [world_after].
           apply (chronological_part w (tick w)); simpl; auto.
        -- rewrite renew_defaults_to_true.
           rewrite (json_validate_renew session_id w s Hget Hlive).
           cbn [world_after]. unfold renewed.
           destruct (Hchron session_id s (get_In _ _ _ Hget))
             as [Hcreated Hlast].
           apply (chronological_set w session_id _ (sessions_json w)
                    (S (ticks w)) (S (S (ticks w))));
             try assumption; try tauto; simpl; try lia.
           specialize (Hlast (S (ticks w))). lia.
      * rewrite (json_validate_expired session_id renew w s Hget Hexpired).
        cbn [world_after].
        apply (chronological_part w (tick w)); simpl; auto.
    + rewrite (json_validate_unknown session_id renew w Hget).
      exact Hchron.
  - intros session_id. unfold Sessions.delete_session.
    rewrite json_delete.
    destruct (PyDict.mem session_id (sessions_json w));
      cbn [world_after]; [|exact Hchron].
    apply (chronological_part w); simpl; auto.
    intros e. apply In_del.
  - intros user. unfold Sessions.delete_user_sessions. simpl.
    unfold StorageJson.delete_user_sessions, bind,
      StorageJson._read_sessions.
    destruct (map fst _) as [|k ks]; cbn [world_after ret];
      [exact Hchron|].
    unfold StorageJson._write_sessions. cbn [world_after].
    apply (chronological_part w); simpl; auto.
    intros e He. apply (In_delete_all (k :: ks)). exact He.
  - unfold Sessions.cleanup_expired_sessions. simpl.
    unfold StorageJson.cleanup_expired_sessions, bind,
      StorageJson._read_sessions, datetime_now.
    destruct (map fst _) as [|k ks]; cbn [world_after ret].
    + apply (chronological_part w (tick w)); simpl; auto.
    + unfold StorageJson._write_sessions. cbn [world_after].
      apply (chronological_part w); simpl; auto.
      intros e He. apply (In_delete_all (k :: ks)). exact He.
  - intros session_id s Hget.
    destruct (Hchron session_id s (get_In _ _ _ Hget)) as [_ Hlast].
    specialize (Hlast (S (ticks w))). lia.
Qed.

Local Abbreviation view_of s :=
  (session_view (Session.session_id s) (Session.username s)
                (Session.created_at s) (Session.last_activity s) exp
                (Session.scopes s)).

(** The loop of [get_active_sessions] on what the JSON file hands over:
    one reading of the clock for every session. *)
Lemma active_loop_json (stored : list (Session.dict datetime)) :
  forall (acc : list view) (w : world),
  exists vs : list view,
    Sessions.active_loop exp (map StorageJson.with_strings stored) acc w
    = Return (acc ++ vs)
             {| sessions_json := sessions_json w;
                ticks := ticks w + length stored |}
    /\ (forall v, In v vs ->
          exists (s : Session.dict datetime) (n : nat),
            In s stored /\ v = view_of s
            /\ (ticks w <= n < ticks w + length stored)%nat
            /\ (now_at n <= Session.last_activity s + ttl)%Z)
    /\ (forall s : Session.dict datetime,
          In s stored ->
          (forall n : nat,
              (ticks w <= n < ticks w + length stored)%nat ->
              (now_at n <= Session.last_activity s + ttl)%Z) ->
          In (view_of s) vs).
Proof.
  induction stored as [|s stored IH]; intros acc w.
  - exists []. cbn [map Sessions.active_loop length]. unfold ret.
    rewrite app_nil_r, Nat.add_0_r. destruct w as [file n].
    split; [reflexivity|]. split; [intros v []|intros s' []].
  - cbn [map Sessions.active_loop StorageJson.with_strings
           Session.last_activity fromisoformat length].
    unfold bind, datetime_now.
    destruct (now_at (ticks w) <=? Session.last_activity s + ttl)%Z
      eqn:Hnow.
    + destruct (IH (acc ++ [view_of s]) (tick w))
        as [vs [Hrun [Hsound Hcomplete]]].
      exists (view_of s :: vs). split; [|split].
      * cbn [StorageJson.with_strings Session.session_id Session.username
               Session.created_at Session.scopes pyval_of_pytime].
        change (Sessions.active_loop exp
                  (map StorageJson.with_strings stored)
                  (acc ++ [view_of s]) (tick w)
                = Return (acc ++ view_of s :: vs)
                    {| sessions_json := sessions_json w;
                       ticks := ticks w + S (length stored) |}).
        rewrite Hrun. cbn [tick sessions_json ticks].
        rewrite <- app_assoc. cbn [app]. f_equal. f_equal. lia.
      * intros v [<-|Hin].
        -- exists s, (ticks w). split; [now left|]. split; [reflexivity|].
           split; [lia|]. now apply Z.leb_le.
        -- destruct (Hsound v Hin) as [s' [n [Hs' [Hv [Hn Hlive]]]]].
           exists s', n. cbn [tick ticks] in Hn.
           split; [now right|]. split; [exact Hv|]. split; [lia|exact Hlive].
      * intros s' [<-|Hin] Hall; [now left|]. right.
        apply (Hcomplete s' Hin). intros n Hn. cbn [tick ticks] in Hn.
        apply Hall. lia.
    + destruct (IH acc (tick w)) as [vs [Hrun [Hsound Hcomplete]]].
      exists vs. split; [|split].
      * rewrite Hrun. cbn [tick sessions_json ticks]. f_equal. f_equal. lia.
      * intros v Hin.
        destruct (Hsound v Hin) as [s' [n [Hs' [Hv [Hn Hlive]]]]].
        exists s', n. cbn [tick ticks] in Hn.
        split; [now right|]. split; [exact Hv|]. split; [lia|exact Hlive].
      * intros s' [<-|Hin] Hall.
        -- apply Z.leb_gt in Hnow. specialize (Hall (ticks w)). lia.
        -- apply (Hcomplete s' Hin). intros n Hn. cbn [tick ticks] in Hn.
           apply Hall. lia.
Qed.

(** X12.  Over the JSON file [get_active_sessions] never raises and leaves
    the file as it was.  Every session it returns is a stored session of
    the asked user (of any user when none is asked), shown with
    [expires_at = last_activity + JWT_EXPIRATION_MINUTES] and not expired at
    a reading of the clock taken during the call; with a clock that does
    not go back, every such session that is still unexpired after the call
    is in the list. *)
Theorem active_sessions_are_the_unexpired (user : option string)
    (w : world) :
  exists (vs : list view) (w' : world),
    Sessions.get_active_sessions json user w = Return vs w'
    /\ sessions_json w' = sessions_json w
    /\ (forall v, In v vs ->
          exists (s : Session.dict datetime) (n : nat),
            In s (PyDict.values (sessions_json w))
            /\ StorageJson.skipped_by user s = false
            /\ v = view_of s
            /\ (ticks w <= n < ticks w')%nat
            /\ (now_at n <= Session.last_activity s + ttl)%Z)
    /\ (clock_monotone ->
        forall s : Session.dict datetime,
          In s (PyDict.values (sessions_json w)) ->
          StorageJson.skipped_by user s = false ->
          (now_at (ticks w') <= Session.last_activity s + ttl)%Z ->
          In (view_of s) vs).
Proof.
  unfold Sessions.get_active_sessions, Sessions._get_expiration_minutes,
    bind.
  change (Storage.get_all_sessions json user w)
    with (StorageJson.get_all_sessions user w).
  unfold StorageJson.get_all_sessions, bind, StorageJson._read_sessions,
    ret.
  set (stored := filter _ (PyDict.values (sessions_json w))).
  destruct (active_loop_json stored [] w) as [vs [Hrun [Hsound Hcomplete]]].
  exists vs. eexists. split; [exact Hrun|]. cbn [sessions_json ticks].
  split; [reflexivity|]. split.
  - intros v Hin.
    destruct (Hsound v Hin) as [s [n [Hs [Hv [Hn Hlive]]]]].
    exists s, n. apply filter_In in Hs as [Hs Hskip].
    apply Bool.negb_true_iff in Hskip. auto.
  - intros Hmono s Hs Hskip Hlive. apply Hcomplete.
    + apply filter_In. split; [exact Hs|]. now rewrite Hskip.
    + intros n Hn.
      assert (now_at n <= now_at (ticks w + length stored))%Z
        by (apply Hmono; lia).
      lia.
Qed.

End LifeOfASession.

(* ================================================================== *)
(** ** The helpers and the routes of the endpoints *)
(* ================================================================== *)

Section EndpointProperties.

Import Endpoints.

Context `{Env}.

(** What validators raise. *)
Variable raised : Type.

Local Abbreviation json := StorageJson.JSONSessionStorage.
Local Abbreviation exp := JWT_EXPIRATION_MINUTES.
Local Abbreviation ttl := (timedelta_minutes JWT_EXPIRATION_MINUTES).
Local Abbreviation view_of s :=
  (session_view (Session.session_id s) (Session.username s)
                (Session.created_at s) (Session.last_activity s) exp
                (Session.scopes s)).


(** X14.  When the validator accepts, the session is created for the user
    name and the scopes of the validator's dictionary, and for those of
    the caller where the dictionary has none (or the answer is no
    dictionary).  Over the JSON file the session is then stored under the
    returned identifier, and [get_session_info] shows it as long as it
    has not expired; a login that fails does so with the error of
    [create_session]. *)
Theorem accepted_login_opens_a_session
    (f : string -> string -> raised + validation)
    (username password : string) (scopes : option string)
    (accepted : validation) (w : world) :
  f username password = inr accepted ->
  accepted <> Invalid ->
  let user :=
    match accepted with
    | ValidDict (Some validated) _ => validated
    | _ => username
    end in
  let granted :=
    match accepted with
    | ValidDict _ (Some validated) => validated
    | _ => scopes
    end in
  (exists (session_id : string) (created : datetime) (w' : world),
      login_user json raised (Some f) username password scopes w
      = Return (WithSession (created_view session_id user created exp granted))
               w'
      /\ PyDict.get session_id (sessions_json w')
         = Some (new_session session_id user created granted)
      /\ ((now_at (ticks w') <= created + ttl)%Z ->
          get_session_info json raised session_id w'
          = Return (WithSession (session_view session_id user created created
                                              exp granted))
                   (tick w')))
  \/ (exists (e : exn) (w' : world),
         login_user json raised (Some f) username password scopes w
         = Return (WithError (ErrorDuringLogin (inr e))) w'
         /\ Sessions.create_session json user granted w = Raise e w').
Proof.
  intros Hf Haccepted user granted.
  assert (Hlogin :
            login_user json raised (Some f) username password scopes w
            = try_except
                (bind (Sessions.create_session json user granted)
                      (fun session => ret (WithSession session)))
                (fun e => WithError (ErrorDuringLogin (inr e))) w).
  { unfold login_user. rewrite Hf.
    destruct accepted; [congruence | reflexivity | reflexivity]. }
  rewrite Hlogin. unfold try_except, bind.
  destruct (Sessions.create_session json user granted w)
    as [v w'|e w'] eqn:Hcreate.
  - left.
    destruct (create_json_stores user granted w w' v Hcreate)
      as [sid [before [Hv [Hfile _]]]]. cbv zeta in Hv, Hfile.
    exists sid, (now_at (pred (ticks w'))), w'.
    assert (Hget : PyDict.get sid (sessions_json w')
                   = Some (new_session sid user (now_at (pred (ticks w')))
                                       granted))
      by (rewrite Hfile; apply get_set_same).
    split; [now rewrite Hv | split; [exact Hget|]].
    intros Hlive. unfold get_session_info, try_except, bind.
    rewrite (json_validate_peek sid w' _ Hget Hlive). reflexivity.
  - right. exists e, w'. split; reflexivity.
Qed.

(** [logout_user] and [get_session_info] over the JSON file. *)
Lemma json_logout (session_id : string) (w : world) :
  logout_user json raised session_id w
  = if PyDict.mem session_id (sessions_json w)
    then Return {| success := true; message := SessionClosed |}
                {| sessions_json := PyDict.del session_id (sessions_json w);
                   ticks := ticks w |}
    else Return {| success := false; message := SessionNotFound |} w.
Proof.
  unfold logout_user, try_except, bind, Sessions.delete_session.
  rewrite json_delete.
  now destruct (PyDict.mem session_id (sessions_json w)).
Qed.

Lemma json_session_info (session_id : string) (w : world) :
  get_session_info json raised session_id w
  = match PyDict.get session_id (sessions_json w) with
    | None => Return (WithError SessionInvalidOrExpired) w
    | Some s =>
        if (now_at (ticks w) <=? Session.last_activity s + ttl)%Z
        then Return (WithSession (view_of s)) (tick w)
        else Return (WithError SessionInvalidOrExpired) (tick w)
    end.
Proof.
  unfold get_session_info, try_except, bind.
  destruct (PyDict.get session_id (sessions_json w)) as [s|] eqn:Hget.
  - destruct (now_at (ticks w) <=? Session.last_activity s + ttl)%Z
      eqn:Hnow.
    + apply Z.leb_le in Hnow.
      now rewrite (json_validate_peek session_id w s Hget Hnow).
    + apply Z.leb_gt in Hnow.
      rewrite (json_validate_expired session_id (Some false) w s Hget);
        [reflexivity | lia].
  - now rewrite (json_validate_unknown session_id (Some false) w Hget).
Qed.

(** What came with the request names a session the logout deleted. *)
Lemma logout_done (auth_header cookie : option string) (w w' : world)
    (b b' : body raised) :
  flask_logout json raised auth_header cookie w = Return (Json b 200) w'
  \/ fastapi_logout json raised auth_header cookie w
     = Return (JsonDeleteCookie b') w' ->
  exists (c : ascii) (session_id : string),
    route_session_id auth_header cookie = inr (Some (String c session_id))
    /\ sessions_json w'
       = PyDict.del (String c session_id) (sessions_json w).
Proof.
  unfold flask_logout, fastapi_logout.
  destruct (route_session_id auth_header cookie)
    as [[]|[[|c session_id]|]];
    try (intros [Hrun|Hrun]; discriminate).
  unfold bind. rewrite json_logout.
  destruct (PyDict.mem (String c session_id) (sessions_json w));
    cbn [success message]; unfold ret.
  - intros [[= _ <-]|[= _ <-]]; exists c, session_id; now split.
  - intros [Hrun|Hrun]; discriminate.
Qed.

(** The guards read the identifier as the routes do. *)
Lemma guards_read_as_routes (storage : Storage.SessionStorage)
    (re_match : string -> string -> option bool) (scopes : option string)
    (auth_header cookie : option string) (flask : bool)
    (c : ascii) (session_id : string) (w : world) :
  route_session_id auth_header cookie = inr (Some (String c session_id)) ->
  Sessions.validate_session storage (String c session_id) (Some true) w
  = Return None w ->
  let r := {| Middleware.headers := Some auth_header;
              Middleware.cookies := Some cookie;
              Middleware.has_json := flask |} in
  Middleware.require_auth storage re_match scopes (Some r) None w
  = Return (Middleware.Rejected
              (if flask
               then Middleware.Response Middleware.AuthorizationRequired 401
               else Middleware.HTTPException
                      401 Middleware.AuthorizationRequired)) w
  /\ Middleware.SessionDependency_call storage re_match scopes r w
     = Return (Middleware.Rejected
                 (Middleware.HTTPException
                    401 Middleware.AuthorizationRequired)) w
  /\ Middleware.get_session_from_request storage r w = Return None w.
Proof.
  intros Hroute Hgone r. subst r.
  unfold route_session_id in Hroute.
  unfold Middleware.require_auth, Middleware.SessionDependency_call,
    Middleware.get_session_from_request, Middleware.authorization.
  cbn [Middleware.headers Middleware.cookies Middleware.has_json].
  destruct auth_header as [[|c0 h]|]; cbn [PyStr.truthy negb] in *.
  - injection Hroute as ->. unfold bind. rewrite Hgone. now repeat split.
  - destruct (Middleware.bearer_token (String c0 h)) as [token|] eqn:Hb;
      [|discriminate].
    destruct (bearer_token_nonempty re_match _ _ Hb) as [_ Htoken].
    destruct token as [|c1 token]; [congruence|].
    cbn [PyStr.truthy negb] in *. injection Hroute as -> ->.
    unfold bind. rewrite Hgone. now repeat split.
  - injection Hroute as ->. unfold bind. rewrite Hgone. now repeat split.
Qed.



End EndpointProperties.

(* ================================================================== *)
(** ** Reading the token and checking the scopes *)
(* ================================================================== *)

Section StringProperties.

Lemma append_empty (s : string) : (s ++ EmptyString)%string = s.
Proof.
  induction s as [|c s IH]; simpl; [reflexivity | now rewrite IH].
Qed.

Lemma append_append (a b c : string) :
  ((a ++ b) ++ c)%string = (a ++ (b ++ c))%string.
Proof.
  induction a as [|x a IH]; simpl; [reflexivity | now rewrite IH].
Qed.

(** A run without spaces goes into the word that is being read. *)
Lemma split_ws_from_word (s : string) :
  forall word : string,
    no_space s = true ->
    PyStr.split_ws_from (Some word) s = [(word ++ s)%string].
Proof.
  induction s as [|c s IH]; intros word Hs; simpl.
  - now rewrite append_empty.
  - simpl in Hs. apply andb_prop in Hs as [Hc Hs].
    apply Bool.negb_true_iff in Hc. rewrite Hc.
    rewrite (IH _ Hs), append_append. reflexivity.
Qed.

Lemma split_ws_from_space (s rest : string) :
  forall word : string,
    no_space s = true ->
    PyStr.split_ws_from (Some word) (s ++ String " " rest)
    = (word ++ s)%string :: PyStr.split_ws_from None rest.
Proof.
  induction s as [|c s IH]; intros word Hs; simpl.
  - now rewrite append_empty.
  - simpl in Hs. apply andb_prop in Hs as [Hc Hs].
    apply Bool.negb_true_iff in Hc. rewrite Hc.
    rewrite (IH _ Hs), append_append. reflexivity.
Qed.

Lemma split_ws_two (scheme token : string) :
  no_space scheme = true -> no_space token = true ->
  scheme <> EmptyString -> token <> EmptyString ->
  PyStr.split_ws (scheme ++ String " " token) = [scheme; token].
Proof.
  intros Hscheme Htoken Hs Ht. unfold PyStr.split_ws.
  destruct scheme as [|c scheme]; [congruence|].
  destruct token as [|c' token]; [congruence|].
  simpl in Hscheme, Htoken.
  apply andb_prop in Hscheme as [Hc Hscheme].
  apply andb_prop in Htoken as [Hc' Htoken].
  apply Bool.negb_true_iff in Hc, Hc'.
  cbn [append PyStr.split_ws_from]. rewrite Hc.
  rewrite (split_ws_from_space scheme _ _ Hscheme).
  cbn [append PyStr.split_ws_from]. rewrite Hc'.
  now rewrite (split_ws_from_word token _ Htoken).
Qed.

(** Every word of [str.split()] is free of spaces. *)
Lemma split_ws_from_no_space (s : string) :
  forall (word : option string) (x : string),
    (forall w, word = Some w -> no_space w = true) ->
    In x (PyStr.split_ws_from word s) -> no_space x = true.
Proof.
  assert (Hsnoc : forall (w : string) (c : ascii),
             no_space w = true -> PyStr.isspace c = false ->
             no_space (w ++ String c EmptyString) = true).
  { induction w as [|x w IHw]; intros c Hw Hc; simpl.
    - now rewrite Hc.
    - simpl in Hw. apply andb_prop in Hw as [Hx Hw].
      rewrite Hx. simpl. now apply IHw. }
  induction s as [|c s IH]; intros word x Hword Hin; simpl in Hin.
  - destruct word as [w|]; simpl in Hin; [|contradiction].
    destruct Hin as [<-|[]]. now apply Hword.
  - destruct (PyStr.isspace c) eqn:Hc.
    + destruct word as [w|].
      * destruct Hin as [<-|Hin]; [now apply Hword|].
        apply (IH None x); [discriminate | exact Hin].
      * apply (IH None x); [discriminate | exact Hin].
    + apply (IH _ x) in Hin; [exact Hin|].
      intros w [= <-]. destruct word as [w0|].
      * apply Hsnoc; [now apply Hword | exact Hc].
      * simpl. now rewrite Hc.
Qed.

Lemma split_nonempty (sep : ascii) (s : string) : PyStr.split sep s <> [].
Proof.
  destruct s as [|c s]; simpl; [discriminate|].
  destruct (Ascii.eqb c sep); [discriminate|].
  destruct (PyStr.split sep s); discriminate.
Qed.

(** A separator between two texts separates their pieces. *)
Lemma split_app (sep : ascii) (a b : string) :
  PyStr.split sep (a ++ String sep b)
  = PyStr.split sep a ++ PyStr.split sep b.
Proof.
  induction a as [|c a IH]; simpl.
  - now rewrite Ascii.eqb_refl.
  - destruct (Ascii.eqb c sep); [now rewrite IH|].
    rewrite IH.
    destruct (PyStr.split sep a) as [|piece pieces] eqn:Ha;
      [now apply split_nonempty in Ha | reflexivity].
Qed.

Lemma split_once_app (sep : ascii) (a b : string) :
  PyStr.contains sep a = false ->
  PyStr.split_once sep (a ++ String sep b) = (a, b).
Proof.
  induction a as [|c a IH]; simpl; intros Ha.
  - now rewrite Ascii.eqb_refl.
  - apply Bool.orb_false_iff in Ha as [Hc Ha].
    rewrite Hc, (IH Ha). reflexivity.
Qed.

Lemma contains_app (sep : ascii) (a b : string) :
  PyStr.contains sep (a ++ String sep b) = true.
Proof.
  induction a as [|c a IH]; simpl.
  - now rewrite Ascii.eqb_refl.
  - rewrite IH. apply Bool.orb_true_r.
Qed.

Lemma contains_split_once (c sep : ascii) (s : string) :
  PyStr.contains c s = false ->
  PyStr.contains c (fst (PyStr.split_once sep s)) = false.
Proof.
  induction s as [|x s IH]; simpl; intros Hs; [reflexivity|].
  apply Bool.orb_false_iff in Hs as [Hx Hs].
  destruct (Ascii.eqb x sep); [reflexivity|].
  destruct (PyStr.split_once sep s) as [a b]. simpl in *.
  rewrite Hx. now apply IH.
Qed.

End StringProperties.

Section MiddlewareProperties.

Import Middleware.

Context `{Env}.

Variable re_match : string -> string -> option bool.

Local Abbreviation json := StorageJson.JSONSessionStorage.
Local Abbreviation ttl := (timedelta_minutes JWT_EXPIRATION_MINUTES).

(** X17.  A token read from a header is not empty and has no space in
    it.  The header [<scheme> <token>], both without spaces and not empty,
    gives the token as it was sent exactly when the scheme is [bearer] in
    some mix of capitals. *)
Theorem bearer_token_round_trip :
  (forall h token : string,
      bearer_token h = Some token ->
      token <> EmptyString /\ no_space token = true)
  /\ (forall scheme token : string,
         no_space scheme = true -> no_space token = true ->
         scheme <> EmptyString -> token <> EmptyString ->
         bearer_token (scheme ++ String " " token)
         = if String.eqb (PyStr.lower scheme) "bearer"
           then Some token else None).
Proof.
  split.
  - intros h token Hb. split.
    + exact (proj2 (bearer_token_nonempty re_match h token Hb)).
    + unfold bearer_token in Hb.
      destruct (PyStr.split_ws h) as [|a [|b [|c l]]] eqn:Hsplit;
        try discriminate.
      destruct (String.eqb (PyStr.lower a) "bearer"); [|discriminate].
      injection Hb as <-.
      apply (split_ws_from_no_space h None b); [discriminate|].
      unfold PyStr.split_ws in Hsplit. rewrite Hsplit. simpl. tauto.
  - intros scheme token Hscheme Htoken Hs Ht. unfold bearer_token.
    now rewrite split_ws_two.
Qed.


Lemma scopes_of_view (session_id user : string)
    (created_at last_activity : datetime) (expiration_minutes : Z)
    (scopes : option string) :
  session_scopes_of (session_view session_id user created_at last_activity
                                  expiration_minutes scopes)
  = scopes.
Proof. now destruct scopes. Qed.


(** X20.  A session without scopes ([None] or the empty string) passes
    no guard that requires scopes, whatever is required. *)
Theorem no_scopes_pass_no_requirement (c : ascii) (required : string) :
  require_auth_scopes re_match (Some (String c required)) None = Some false
  /\ require_auth_scopes re_match (Some (String c required))
                         (Some EmptyString) = Some false
  /\ SessionDependency_scopes re_match (Some (String c required)) None
     = Some false
  /\ SessionDependency_scopes re_match (Some (String c required))
                              (Some EmptyString) = Some false.
Proof.
  assert (Hloop : require_auth_required_loop
                    re_match (split_strip (String c required)) []
                  = Some false).
  { unfold split_strip.
    destruct (PyStr.split "," (String c required)) as [|first rest] eqn:Hs;
      [now apply split_nonempty in Hs|].
    cbn [map require_auth_required_loop]. unfold require_auth_matched.
    destruct (PyStr.contains ":" (PyStr.strip first)); [|reflexivity].
    now destruct (PyStr.split_once ":" (PyStr.strip first)). }
  rewrite <- (scopes_same re_match (Some (String c required)) None).
  rewrite <- (scopes_same re_match (Some (String c required))
                          (Some EmptyString)).
  unfold require_auth_scopes. now rewrite Hloop.
Qed.

(** The inner loop when the required subsystem has no [*]. *)
Lemma user_loop_grants (req_subsystem : string)
    (req_perms_list user_scopes : list string) :
  PyStr.contains "*" req_subsystem = false ->
  require_auth_user_loop re_match req_subsystem req_perms_list user_scopes
  = Some (existsb (grants req_subsystem req_perms_list) user_scopes).
Proof.
  intros Hstar.
  induction user_scopes as [|user_scope rest IH];
    cbn [require_auth_user_loop existsb]; [reflexivity|].
  unfold grants at 1.
  destruct (PyStr.contains ":" user_scope); cbn [negb andb orb];
    [|exact IH].
  destruct (PyStr.split_once ":" user_scope) as [user_subsystem user_perms].
  cbn [fst snd]. rewrite Hstar.
  destruct (String.eqb req_subsystem user_subsystem); cbn [andb orb];
    [|exact IH].
  destruct (PyStr.mem "admin" (split_strip user_perms)); cbn [orb];
    [reflexivity|].
  destruct (forallb _ req_perms_list); [reflexivity | exact IH].
Qed.

(** X21.  When the required subsystem has no [*], the loop over the
    granted tokens answers whether some token names that very subsystem
    and holds [admin] or every required permission; no token of another
    subsystem counts, and [re.match] is not called. *)
Theorem subsystem_scope_is_some_grant (req_subsystem : string)
    (req_perms_list user_scopes : list string) :
  PyStr.contains "*" req_subsystem = false ->
  require_auth_user_loop re_match req_subsystem req_perms_list user_scopes
  = Some (existsb (grants req_subsystem req_perms_list) user_scopes)
  /\ SessionDependency_user_loop re_match req_subsystem req_perms_list
                                 user_scopes
     = Some (existsb (grants req_subsystem req_perms_list) user_scopes)
  /\ (require_auth_user_loop re_match req_subsystem req_perms_list
                             user_scopes = Some true ->
      exists user_scope : string,
        In user_scope user_scopes
        /\ fst (PyStr.split_once ":" user_scope) = req_subsystem).
Proof.
  intros Hstar.
  assert (Hloop := user_loop_grants req_subsystem req_perms_list
                     user_scopes Hstar).
  split; [exact Hloop | split].
  - now rewrite <- (user_loop_same re_match req_subsystem req_perms_list
                                   user_scopes).
  - rewrite Hloop. intros [= Hsome].
    apply existsb_exists in Hsome as [g [Hin Hg]].
    exists g. split; [exact Hin|]. unfold grants in Hg.
    apply andb_prop in Hg as [Hg _]. apply andb_prop in Hg as [_ Hg].
    apply String.eqb_eq in Hg. now symmetry.
Qed.

Lemma matched_more (required : string) (user_scopes more : list string) :
  PyStr.contains "*" required = false ->
  incl user_scopes more ->
  require_auth_matched re_match required user_scopes = Some true ->
  require_auth_matched re_match required more = Some true.
Proof.
  intros Hstar Hincl. unfold require_auth_matched.
  destruct (PyStr.contains ":" required).
  - assert (Hsub := contains_split_once "*" ":" required Hstar).
    destruct (PyStr.split_once ":" required) as [req_subsystem req_perms].
    cbn [fst] in Hsub. rewrite !user_loop_grants by exact Hsub.
    intros [= Hsome]. f_equal.
    apply existsb_exists in Hsome as [g [Hin Hg]].
    apply existsb_exists. exists g. split; [now apply Hincl | exact Hg].
  - intros [= Hmem]. f_equal. apply mem_In. apply Hincl. now apply mem_In.
Qed.

Lemma required_loop_more (required_scopes user_scopes more : list string) :
  (forall required, In required required_scopes ->
                    PyStr.contains "*" required = false) ->
  incl user_scopes more ->
  require_auth_required_loop re_match required_scopes user_scopes
  = Some true ->
  require_auth_required_loop re_match required_scopes more = Some true.
Proof.
  intros Hstar Hincl.
  induction required_scopes as [|required rest IH];
    cbn [require_auth_required_loop]; [reflexivity|].
  destruct (require_auth_matched re_match required user_scopes)
    as [[|]|] eqn:Hmatched; cbn [negb]; try discriminate.
  rewrite (matched_more required user_scopes more); cbn [negb].
  - apply IH. intros x Hx. apply Hstar. now right.
  - apply Hstar. now left.
  - exact Hincl.
  - exact Hmatched.
Qed.

(** X22.  More granted scopes never take access away: when no required
    scope has a [*], a session that passes with the scopes [granted]
    passes with [granted,more] as well, through both guards. *)
Theorem more_scopes_never_revoke (scopes : option string)
    (granted more : string) :
  (forall required : string,
      In required (match scopes with
                   | Some required_scopes => split_strip required_scopes
                   | None => []
                   end) ->
      PyStr.contains "*" required = false) ->
  require_auth_scopes re_match scopes (Some granted) = Some true ->
  require_auth_scopes re_match scopes (Some (granted ++ String "," more)%string)
  = Some true
  /\ SessionDependency_scopes re_match scopes
                              (Some (granted ++ String "," more)%string)
     = Some true.
Proof.
  intros Hstar Hpass.
  assert (Hmore : require_auth_scopes
                    re_match scopes (Some (granted ++ String "," more)%string)
                  = Some true).
  { unfold require_auth_scopes in *.
    destruct scopes as [[|c required_scopes]|]; try reflexivity.
    assert (Hcut : split_strip (granted ++ String "," more)%string
                   = split_strip granted ++ split_strip more)
      by (unfold split_strip; now rewrite split_app, map_app).
    destruct (granted ++ String "," more)%string as [|c' all] eqn:Hall.
    - destruct granted; discriminate.
    - cbv beta iota zeta. rewrite Hcut.
      apply (required_loop_more _
               (match granted with
                | EmptyString => []
                | String _ _ => split_strip granted
                end)).
      + exact Hstar.
      + destruct granted; [intros x [] | now apply incl_appl, incl_refl].
      + now destruct granted. }
  split; [exact Hmore|].
  now rewrite <- (scopes_same re_match scopes
                          (Some (granted ++ String "," more)%string)).
Qed.

(** X23.  The permission [admin] on a subsystem covers every requirement
    on that subsystem: a granted token [<subsystem>:<permissions>] with
    [admin] among its permissions matches [<subsystem>:<anything>]. *)
Theorem admin_covers_the_subsystem (subsystem req_perms user_perms : string)
    (user_scopes : list string) :
  PyStr.contains ":" subsystem = false ->
  PyStr.contains "*" subsystem = false ->
  In (subsystem ++ String ":" user_perms)%string user_scopes ->
  PyStr.mem "admin" (split_strip user_perms) = true ->
  require_auth_matched re_match (subsystem ++ String ":" req_perms)%string
                       user_scopes = Some true
  /\ SessionDependency_matched re_match (subsystem ++ String ":" req_perms)%string
                               user_scopes = Some true.
Proof.
  intros Hcolon Hstar Hin Hadmin.
  assert (Hmatched : require_auth_matched
                       re_match (subsystem ++ String ":" req_perms)%string
                       user_scopes = Some true).
  { unfold require_auth_matched.
    rewrite contains_app, (split_once_app ":" subsystem req_perms Hcolon).
    rewrite user_loop_grants by exact Hstar. f_equal.
    apply existsb_exists. exists (subsystem ++ String ":" user_perms)%string.
    split; [exact Hin|]. unfold grants.
    rewrite contains_app, (split_once_app ":" subsystem user_perms Hcolon).
    cbn [fst snd]. now rewrite String.eqb_refl, Hadmin. }
  split; [exact Hmatched|].
  now rewrite <- (matched_same re_match
                  (subsystem ++ String ":" req_perms)%string user_scopes).
Qed.

End MiddlewareProperties.

(* ================================================================== *)
(** ** Logins within the quota *)
(* ================================================================== *)

Section LoginWithinQuota.

Import Endpoints.

Context `{Env}.

Variable raised : Type.

Local Abbreviation json := StorageJson.JSONSessionStorage.


End LoginWithinQuota.

(* ================================================================== *)
(** ** The further properties at work *)
(* ================================================================== *)

Lemma alice_file_has_no_key_twice (n : nat) :
  NoDup (PyDict.keys (sessions_json (alice_world n))).
Proof.
  simpl. constructor; [intros [] | constructor].
Qed.

Lemma alice_world_chronological (n : nat) :
  chronological (H := minute_env) (alice_world n).
Proof.
  intros k s [Heq|[]]. injection Heq as <- <-. simpl. split; [lia|].
  intros m Hm. unfold timedelta_minutes. lia.
Qed.

Lemma deleted_session_is_gone_witness :
  exists w1 : world,
    Storage.delete_session minute_json "sid-0" (alice_world 3)
    = Return true w1
    /\ Storage.get_session minute_json "sid-0" w1 = Return None w1
    /\ Storage.delete_session minute_json "sid-0" w1 = Return false w1.
Proof.
  destruct (deleted_session_is_gone (H := minute_env) "sid-0"
              (alice_world 3) (alice_file_has_no_key_twice 3))
    as [w1 [Hdelete [_ [Hget [_ Hagain]]]]].
  exists w1. split; [exact Hdelete | split; [exact Hget | exact Hagain]].
Defined.

Lemma user_sessions_are_all_deleted_witness :
  Storage.delete_user_sessions minute_json "alice" (alice_world 3)
  = Return 1%Z {| sessions_json := []; ticks := 3 |}.
Proof.
  exact (user_sessions_are_all_deleted (H := minute_env) "alice"
           (alice_world 3) (alice_file_has_no_key_twice 3)).
Defined.


Lemma created_session_validates_witness :
  let w' := {| sessions_json :=
                 [("sid-1", new_session "sid-1" "alice" 120000000 None)];
               ticks := 3 |} in
  Sessions.validate_session (H := minute_env) minute_json "sid-1"
                            (Some false) w'
  = Return (Some (session_view "sid-1" "alice" 120000000 120000000 30 None))
           (tick w').
Proof.
  intros w'.
  destruct (created_session_validates (H := minute_env) "alice" None
              empty_world w'
              (created_view "sid-1" "alice" 120000000 30 None) eq_refl)
    as [sid [created [Hv [_ [_ [Hlive _]]]]]].
  injection Hv as <- <-. apply Hlive. vm_compute. discriminate.
Defined.

Lemma renewal_is_read_back_witness :
  bind (Sessions.validate_session (H := minute_env) minute_json "sid-0"
                                  (Some true))
       (fun _ => Sessions.validate_session (H := minute_env) minute_json
                                           "sid-0" (Some false))
       (alice_world 5)
  = Return
      (Some (session_view "sid-0" "alice" 0 (timedelta_minutes 6) 30
                          (Some "billing:read")))
      {| sessions_json :=
           [("sid-0",
             StorageJson.set_last_activity (timedelta_minutes 6)
                                           alice_session)];
         ticks := 8 |}.
Proof.
  refine (renewal_is_read_back (H := minute_env) "sid-0" (alice_world 5)
            alice_session _ _ _).
  - reflexivity.
  - vm_compute. discriminate.
  - vm_compute. discriminate.
Defined.

Lemma timestamps_stay_chronological_witness :
  chronological (H := minute_env)
    (world_after (Sessions.create_session (H := minute_env) minute_json
                                          "bob" None (alice_world 1)))
  /\ chronological (H := minute_env)
       (world_after (Sessions.validate_session (H := minute_env) minute_json
                                               "sid-0" None (alice_world 1))).
Proof.
  destruct (timestamps_stay_chronological (H := minute_env) (alice_world 1)
              minute_clock_monotone (alice_world_chronological 1))
    as [Hcreate [Hvalidate _]].
  split; [apply Hcreate | apply Hvalidate].
Defined.

Lemma accepted_login_opens_a_session_witness :
  exists (session_id : string) (created : datetime) (w' : world),
    Endpoints.login_user (H := minute_env) minute_json unit
      (Some (fun _ _ =>
               inr (Endpoints.ValidDict (Some "alice")
                                        (Some (Some "billing:read")))))
      "Alice" "secret" None empty_world
    = Return (Endpoints.WithSession
                (created_view session_id "alice" created 30
                              (Some "billing:read")))
             w'.
Proof.
  destruct (accepted_login_opens_a_session (H := minute_env) unit
              (fun _ _ =>
                 inr (Endpoints.ValidDict (Some "alice")
                                          (Some (Some "billing:read"))))
              "Alice" "secret" None
              (Endpoints.ValidDict (Some "alice")
                                   (Some (Some "billing:read")))
              empty_world eq_refl ltac:(discriminate))
    as [[sid [created [w' [Hlogin _]]]]|[e [w' [_ Hraise]]]].
  - exists sid, created, w'. exact Hlogin.
  - vm_compute in Hraise. discriminate.
Defined.




Lemma subsystem_scope_is_some_grant_witness :
  Middleware.require_auth_user_loop Re.re_match "billing" ["read"]
    ["orders:read"; "billing:admin"]
  = Some (existsb (grants "billing" ["read"])
                  ["orders:read"; "billing:admin"]).
Proof.
  exact (proj1 (subsystem_scope_is_some_grant Re.re_match "billing" ["read"]
                  ["orders:read"; "billing:admin"] eq_refl)).
Defined.

Lemma more_scopes_never_revoke_witness :
  Middleware.require_auth_scopes Re.re_match (Some "billing:read")
                                 (Some "billing:read,orders:read")
  = Some true.
Proof.
  refine (proj1 (more_scopes_never_revoke Re.re_match (Some "billing:read")
                   "billing:read" "orders:read" _ _)).
  - intros required [<-|[]]. reflexivity.
  - reflexivity.
Defined.

Lemma admin_covers_the_subsystem_witness :
  Middleware.require_auth_matched Re.re_match "billing:read,write"
                                  ["orders:read"; "billing:admin"]
  = Some true.
Proof.
  refine (proj1 (admin_covers_the_subsystem Re.re_match "billing"
                   "read,write" "admin" ["orders:read"; "billing:admin"]
                   _ _ _ _)).
  - reflexivity.
  - reflexivity.
  - right. left. reflexivity.
  - reflexivity.
Defined.

